(** * Dashboard summarization service: prompt builders, model gateway and routes

    A shallow embedding of the two Express services of the repository
    (the Vertex AI SDK service and the REST service that calls the model
    endpoint with [fetch]), and the properties of their authorization gate,
    prompt templates, response extraction and error handling.

    Conventions of the embedding.
    - A JavaScript value is a [JsVal]; request bodies and model replies are
      values decoded from JSON.  A number is kept by what the program can
      observe of it: its text, whether it is finite, whether it is truthy.
    - A JavaScript string is a [string], one character per code unit.
    - [async] functions run to completion in program order, so [await] is
      sequencing; a computation yields a trace of its console and network
      events together with a normal or abrupt completion.
    - The template literals are kept character for character.  In the SDK
      service the backticks inside the templates are written without a
      backslash; they are read as the characters they stand for, as in the
      REST service, which escapes them. *)

From Stdlib Require Import String Ascii List ZArith Bool Lia.
From Stdlib Require Import Numbers.DecimalString.
Import ListNotations.
Open Scope string_scope.

(** ** JavaScript values *)

(** The double-quote character, for the templates that contain it, and
    the line feed that the escape [\n] stands for. *)
Definition dq : string := String "034"%char EmptyString.
Definition nl : string := String "010"%char EmptyString.

Record number := {
  number_text : string;    (* Number::toString *)
  number_finite : bool;    (* neither NaN nor an infinity *)
  number_truthy : bool     (* neither 0 nor NaN *)
}.

#[warnings="-register-all"] Inductive JsVal : Type :=
| JUndefined
| JNull
| JBool (b : bool)
| JNum (n : number)
| JStr (s : string)
| JArr (elems : list JsVal)
| JObj (props : list (string * JsVal)).

(** The operands the program compares with [===] and [!==]: a string
    literal, [null], or an environment variable (a string or undefined). *)
Inductive constant := CUndefined | CNull | CString (s : string).

Definition env_value (e : option string) : constant :=
  match e with
  | Some s => CString s
  | None => CUndefined
  end.

Definition constant_value (c : constant) : JsVal :=
  match c with
  | CUndefined => JUndefined
  | CNull => JNull
  | CString s => JStr s
  end.

(** [v === c]: same type and same value, no conversion. *)
Definition strict_eq (v : JsVal) (c : constant) : bool :=
  match v, c with
  | JUndefined, CUndefined => true
  | JNull, CNull => true
  | JStr a, CString b => String.eqb a b
  | _, _ => false
  end.

Definition strict_neq (v : JsVal) (c : constant) : bool := negb (strict_eq v c).

Definition is_nullish (v : JsVal) : bool :=
  match v with
  | JUndefined | JNull => true
  | _ => false
  end.

Definition ToBoolean (v : JsVal) : bool :=
  match v with
  | JUndefined | JNull => false
  | JBool b => b
  | JNum n => number_truthy n
  | JStr s => negb (String.eqb s "")
  | JArr _ | JObj _ => true
  end.

(** [a || b] *)
Definition or_else (a b : JsVal) : JsVal := if ToBoolean a then a else b.

(** ** Completions *)

Inductive exn :=
| TypeError
| SyntaxError
| Error (message : string).

Inductive completion (A : Type) : Type :=
| Normal (a : A)
| Throw (e : exn).
Arguments Normal {A} a.
Arguments Throw {A} e.

Definition cbind {A B} (c : completion A) (f : A -> completion B) : completion B :=
  match c with
  | Normal a => f a
  | Throw e => Throw e
  end.

Declare Scope js_scope.
Delimit Scope js_scope with js.
Notation "x <~ c1 ;; c2" := (cbind c1 (fun x => c2))
  (at level 61, c1 at next level, right associativity) : js_scope.

(** The first failure of [f] along a list, or all its results. *)
Fixpoint traverse {A B} (f : A -> completion B) (l : list A) : completion (list B) :=
  match l with
  | [] => Normal []
  | x :: r => (y <~ f x ;; ys <~ traverse f r ;; Normal (y :: ys))%js
  end.

(** ** Conversion to a string *)

(** Whether an object has an own property of that name. *)
Definition has_own (k : string) (ps : list (string * JsVal)) : bool :=
  existsb (fun kv => String.eqb k (fst kv)) ps.

(** ToString, as a template literal, string [+] and [join] apply it.  An
    array is joined with commas, its null and undefined elements as empty
    text.  An object is converted by its [toString]: the inherited one
    gives "[object Object]"; an own property of that name hides it, and
    since a value decoded from JSON is never a function (and the inherited
    [valueOf] returns the object itself), the conversion then throws a
    TypeError. *)
Fixpoint ToString (v : JsVal) : completion string :=
  match v with
  | JUndefined => Normal "undefined"
  | JNull => Normal "null"
  | JBool b => Normal (if b then "true" else "false")
  | JNum n => Normal (number_text n)
  | JStr s => Normal s
  | JArr l =>
      match
        (fix texts (l : list JsVal) : completion (list string) :=
           match l with
           | [] => Normal []
           | x :: r =>
               match
                 match x with
                 | JUndefined | JNull => Normal ""
                 | _ => ToString x
                 end
               with
               | Normal t =>
                   match texts r with
                   | Normal ts => Normal (t :: ts)
                   | Throw e => Throw e
                   end
               | Throw e => Throw e
               end
           end) l
      with
      | Normal ts => Normal (String.concat "," ts)
      | Throw e => Throw e
      end
  | JObj ps =>
      if has_own "toString" ps then Throw TypeError else Normal "[object Object]"
  end.

Definition element_text (x : JsVal) : completion string :=
  if is_nullish x then Normal "" else ToString x.

(** Array.prototype.join *)
Definition Array_join (sep : string) (l : list JsVal) : completion string :=
  (texts <~ traverse element_text l ;; Normal (String.concat sep texts))%js.

(** Whether the conversion succeeds. *)
Definition converts (v : JsVal) : bool :=
  match ToString v with
  | Normal _ => true
  | Throw _ => false
  end.

(** The text of a value that converts.  It is also the text of the values
    that the credential helper and the model endpoint hand out where the
    REST service splices them into a header or a message: an access token
    and an error message are strings (or null, or undefined). *)
Fixpoint text_of (v : JsVal) : string :=
  match v with
  | JUndefined => "undefined"
  | JNull => "null"
  | JBool b => if b then "true" else "false"
  | JNum n => number_text n
  | JStr s => s
  | JArr l =>
      String.concat ","
        (map (fun x => match x with
                       | JUndefined | JNull => ""
                       | _ => text_of x
                       end) l)
  | JObj _ => "[object Object]"
  end.

(** ** JSON.stringify *)

Definition hex_digit (n : nat) : string :=
  String (nth n (list_ascii_of_string "0123456789abcdef") "0"%char) EmptyString.

Definition escape_char (c : ascii) : string :=
  let n := nat_of_ascii c in
  if Nat.eqb n 34 then "\" ++ dq
  else if Nat.eqb n 92 then "\\"
  else if Nat.eqb n 8 then "\b"
  else if Nat.eqb n 12 then "\f"
  else if Nat.eqb n 10 then "\n"
  else if Nat.eqb n 13 then "\r"
  else if Nat.eqb n 9 then "\t"
  else if Nat.ltb n 32 then "\u00" ++ hex_digit (n / 16) ++ hex_digit (n mod 16)
  else String c EmptyString.

Fixpoint escape_chars (s : string) : string :=
  match s with
  | EmptyString => EmptyString
  | String c r => escape_char c ++ escape_chars r
  end.

Definition QuoteJSONString (s : string) : string := dq ++ escape_chars s ++ dq.

(** The text of a value, [None] where JSON.stringify gives undefined. *)
Fixpoint SerializeJSON (v : JsVal) : option string :=
  match v with
  | JUndefined => None
  | JNull => Some "null"
  | JBool b => Some (if b then "true" else "false")
  | JNum n => Some (if number_finite n then number_text n else "null")
  | JStr s => Some (QuoteJSONString s)
  | JArr l =>
      Some ("[" ++ String.concat ","
                     (map (fun x => match SerializeJSON x with
                                    | Some t => t
                                    | None => "null"
                                    end) l) ++ "]")
  | JObj ps =>
      Some ("{" ++ String.concat ","
                     (flat_map (fun kv => match kv with
                                          | (k, x) =>
                                              match SerializeJSON x with
                                              | Some t => [QuoteJSONString k ++ ":" ++ t]
                                              | None => []
                                              end
                                          end) ps) ++ "}")
  end.

Definition JSON_stringify (v : JsVal) : JsVal :=
  match SerializeJSON v with
  | Some t => JStr t
  | None => JUndefined
  end.

(** ** Property reads and calls *)

(** Own properties of an object, in enumeration order. *)
Fixpoint lookup (k : string) (ps : list (string * JsVal)) : JsVal :=
  match ps with
  | [] => JUndefined
  | (k', v) :: r => if String.eqb k k' then v else lookup k r
  end.

(** [v.k] for the property names this program reads; none of them is a
    built-in of a string, number, boolean or array.  Reading a property
    of null or undefined throws. *)
Definition prop (v : JsVal) (k : string) : JsVal :=
  match v with
  | JObj ps => lookup k ps
  | _ => JUndefined
  end.

Definition get (v : JsVal) (k : string) : completion JsVal :=
  if is_nullish v then Throw TypeError else Normal (prop v k).

(** [v[0]] *)
Definition get0 (v : JsVal) : completion JsVal :=
  match v with
  | JUndefined | JNull => Throw TypeError
  | JArr l => Normal (hd JUndefined l)
  | JObj ps => Normal (lookup "0" ps)
  | JStr (String c _) => Normal (JStr (String c EmptyString))
  | _ => Normal JUndefined
  end.

(** [v.join(sep)]: only an array has a callable [join]; a JSON value
    holds no function. *)
Definition call_join (v : JsVal) (sep : string) : completion string :=
  match v with
  | JArr l => Array_join sep l
  | _ => Throw TypeError
  end.

(** ** Effects: console, credential helper, model endpoint *)

Inductive logarg :=
| ArgValue (v : JsVal)
| ArgError (e : exn).

Inductive event :=
| ConsoleLog (args : list logarg)
| ConsoleError (args : list logarg)
| AccessTokenRequest
| GenerateContent (text : string)
| Fetch (authorization : string) (text : string).

Definition M (A : Type) : Type := (list event * completion A)%type.

Definition ret {A} (a : A) : M A := ([], Normal a).
Definition throw {A} (e : exn) : M A := ([], Throw e).
Definition lift {A} (c : completion A) : M A := ([], c).
Definition emit (e : event) : M unit := ([e], Normal tt).

Definition bind {A B} (m : M A) (f : A -> M B) : M B :=
  match m with
  | (t, Normal a) => let (t', r) := f a in ((t ++ t')%list, r)
  | (t, Throw e) => (t, Throw e)
  end.

(** [try { m } catch (e) { h e }] *)
Definition try_catch {A} (m : M A) (h : exn -> M A) : M A :=
  match m with
  | (t, Normal a) => (t, Normal a)
  | (t, Throw e) => let (t', r) := h e in ((t ++ t')%list, r)
  end.

Notation "x <- c1 ;; c2" := (bind c1 (fun x => c2))
  (at level 61, c1 at next level, right associativity) : js_scope.
Notation "c1 ;; c2" := (bind c1 (fun _ => c2))
  (at level 61, right associativity) : js_scope.

Definition trace {A} (m : M A) : list event := fst m.
Definition outcome {A} (m : M A) : completion A := snd m.

(** ** HTTP *)

(** [res.send(text)], and [res.json({field: value})], which sends the
    text that JSON.stringify gives for the object. *)
Inductive payload :=
| Send (text : string)
| Json (field : string) (value : JsVal).

Record response := { status : Z; payload_of : payload }.

Definition internal_error : response :=
  {| status := 500; payload_of := Send "Internal Server Error" |}.

(** A request that reaches the routes, by the body that [express.json()]
    has parsed: an object, given by its properties ([{}] when the request
    carries none).  A body that the parser refuses is answered by the
    parser and reaches neither the gate nor a route. *)
Record request := { body : list (string * JsVal) }.

Record config := { GENAI_CLIENT_SECRET : option string }.

Definition storedClientSecret (cfg : config) : constant :=
  env_value (GENAI_CLIENT_SECRET cfg).

Inductive route := GenerateQuerySummary | GenerateSummary | GenerateQuerySuggestions.

Definition result_field (r : route) : string :=
  match r with
  | GenerateQuerySuggestions => "suggestions"
  | _ => "summary"
  end.

Definition forbidden : response :=
  {| status := 403; payload_of := Send "Forbidden: Invalid client secret" |}.

(** The test of the gate: [clientSecret === storedClientSecret]. *)
Definition passes (cfg : config) (req : request) : bool :=
  strict_eq (lookup "client_secret" (body req)) (storedClientSecret cfg).

Definition is_model_call (e : event) : bool :=
  match e with
  | GenerateContent _ | Fetch _ _ => true
  | _ => false
  end.

Definition model_calls (t : list event) : list event := filter is_model_call t.

(** ** Substrings *)

Fixpoint is_prefix (s t : string) : bool :=
  match s, t with
  | EmptyString, _ => true
  | String a s', String b t' => Ascii.eqb a b && is_prefix s' t'
  | String _ _, EmptyString => false
  end.

Fixpoint contains (s t : string) : bool :=
  is_prefix s t ||
  match t with
  | EmptyString => false
  | String _ t' => contains s t'
  end.

Definition substring_of (s t : string) : Prop :=
  exists pre post, t = pre ++ s ++ post.

(** The text after the first [n] characters. *)
Definition after (n : nat) (s : string) : string :=
  substring n (String.length s - n) s.

(** A template: fixed pieces with one value between each two. *)
Fixpoint fill (pieces values : list string) : string :=
  match pieces, values with
  | [], _ => EmptyString
  | s :: _, [] => s
  | s :: pieces', v :: values' => s ++ v ++ fill pieces' values'
  end.

(** The values the query-summary template takes, read and converted in
    the order of the template; [note_of] is the conditional of the
    service. *)
Definition query_values (note_of : JsVal -> completion string)
    (query description nextStepsInstructions : JsVal)
  : completion (list string) :=
  (instructions <~ ToString (or_else nextStepsInstructions (JStr "")) ;;
   detail <~ ToString (or_else description (JStr "")) ;;
   title <~ get query "title" ;;
   title <~ ToString title ;;
   note_text <~ get query "note_text" ;;
   note <~ note_of note_text ;;
   queryBody <~ get query "queryBody" ;;
   fields <~ get queryBody "fields" ;;
   fields <~ ToString fields ;;
   queryData <~ get query "queryData" ;;
   data <~ ToString (JSON_stringify queryData) ;;
   Normal [instructions; detail; title; note; fields; data])%js.

(** A query whose properties can be read: neither it nor its
    [queryBody] is null or undefined. *)
Definition renderable (query : JsVal) : bool :=
  negb (is_nullish query) && negb (is_nullish (prop query "queryBody")).

(** A query that can be read and whose title, note and fields convert to
    text. *)
Definition readable (query : JsVal) : bool :=
  renderable query
  && converts (prop query "title")
  && converts (prop query "note_text")
  && converts (prop (prop query "queryBody") "fields").

(** Whether two rendering attempts end alike: the same text, or both
    with a throw. *)
Definition same_text (a b : completion string) : bool :=
  match a, b with
  | Normal s, Normal t => String.eqb s t
  | Throw _, Throw _ => true
  | _, _ => false
  end.

(** The text before the last [n] characters. *)
Definition but_last (n : nat) (s : string) : string :=
  substring 0 (String.length s - n) s.

(** * The SDK service *)

Module SDK.

(** The model client: what [generativeModel.generateContent] resolves to,
    or rejects with, for a user message with the given text. *)
Record world := { generateContent : string -> completion JsVal }.

(** ** Fixed text of the templates, between the interpolations *)

Definition context_text_0 : string :=
  "
    Summary style/specialized instructions: ".

Definition context_text_1 : string :=
  "
    Dashboard Detail: ".

Definition context_text_2 : string :=
  " 

    Query Details:  " ++ dq ++ "Query Title: ".

Definition context_text_3 : string :=
  " 
 ".

Definition context_text_4 : string :=
  " 
 Query Fields: ".

Definition context_text_5 : string :=
  " 
 Query Data: ".

Definition context_text_6 : string :=
  " 
" ++ dq ++ "
    ".

Definition queryPrompt_text_0 : string :=
  "
    You are an expert Looker dashboard analyst tasked with summarizing dashboard queries and providing actionable next steps in Markdown format.

    **Strict Formatting and Content Requirements:**

    * **Markdown Output:** All responses must be formatted using Markdown. Supported elements include headings, bold, italic, links, tables, lists, code blocks, and blockquotes.
    * **No Images:** Do not include or attempt to render images.
    * **Numerical Formatting:** Format numerical values as percentages or dollar amounts (rounded to the nearest cent).
    * **No Indentation:** Do not indent any part of your response.
    * **Query-Specific Sections:** Each dashboard query summary should adhere to the following structure, starting on a new line:
        * `## Query Name`: Use the " ++ dq ++ "Query Title" ++ dq ++ " from the provided `context`.
        * `Description`: A concise (2-4 sentences) paragraph describing the query.
        * `> Summary`: A blockquote (3-5 sentences) summarizing the query results for user comprehension.
        * `## Next Steps`: A bulleted list of 2-3 actionable next steps based on the query summary.
    * **Newlines and Dividers:** Each query summary must start on a new line and end with a horizontal divider (`---`).

    **Context:**
    
    '''
    Context: ".

Definition queryPrompt_text_1 : string :=
  "
    '''

    **Example Output (Use as a Template, Not Verbatim):**

    '''markdown
    ## Web Traffic Over Time

    This query details the amount of web traffic received to the website over the past 6 months. It includes a web traffic source field of organic, search, and display, as well as an amount field detailing the number of users from those sources.

    > It appears that search has consistently driven the highest user traffic, with 9875 users in the past month and a peak in December at 1000 unique users. Organic traffic is the second highest, while display traffic is significantly lower. Display traffic started strong but declined steadily. There was a notable 23% spike in organic traffic in March.

    ## Next Steps
    * Investigate the 23% organic traffic spike in March to identify potential causes (e.g., marketing campaign, website error).
    * Segment search traffic by campaign source to identify high-performing strategies.
    * Analyze display traffic patterns to determine the factors contributing to its decline and explore optimization strategies.
    ---
    '''
    ".

Definition finalPromptData_text_0 : string :=
  "
    You are a specialized answering assistant that can summarize a Looker dashboard and the underlying data and propose operational next steps drawing conclusions from the Query Details listed above. Follow the instructions below:

    Please highlight the findings of all of the query data here. All responses MUST be based on the actual information returned by these queries: 
                            
    data: ".

Definition finalPromptData_text_1 : string :=
  "

    For example, use the names of the locations in the data series (like Seattle, Indianapolis, Chicago, etc) in recommendations regarding locations. Use the name of a process if discussing processes. Don't use row numbers to refer to any facility, process or location. This information should be sourced from the above data.
    Surface the most important or notable details and combine next steps recommendations into one bulleted list of 2-6 suggestions. 
 
    --------------
    Here is an output format Example:
        ---------------
        
        ## Web Traffic Over Time 

        This query details the amount of web traffic received to the website over the past 6 months. It includes a web traffic source field of organic, search and display
        as well as an amount field detailing the amount of people coming from those sources to the website. 

        
        > It looks like search historically has been driving the most user traffic with 9875 users over the past month with peak traffic happening in december at 1000 unique users.
        Organic comes in second and display a distant 3rd. It seems that display got off to a decent start in the year, but has decreased in volume consistently into the end of the year.
        There appears to be a large spike in organic traffic during the month of March a 23% increase from the rest of the year.

        

        
        ## Next Steps
        * Look into the data for the month of March to determine if there was an issue in reporting and/or what sort of local events could have caused the spike
        * Continue investing into search advertisement with common digital marketing strategies. IT would also be good to identify/breakdown this number by campaign source and see what strategies have been working well for Search.
        * Display seems to be dropping off and variable. Use only during select months and optimize for heavily trafficed areas with a good demographic for the site retention.

        

    -----------

    Please add actionable next steps, both for immediate intervention, improved data gathering and further analysis of existing data.
    Here are some tips for creating actionable next steps: 

    -----------
    ".

Definition finalPromptData_text_2 : string :=
  "
    -----------
    
    ".

Definition querySuggestionsPromptData_text_0 : string :=
  "
    You are an expert Looker analyst tasked with generating actionable next-step investigation queries in JSON format.

    Your goal is to provide a JSON array of strings, where each string represents a potential Looker query or data exploration suggestion. These suggestions should directly address the " ++ dq ++ "next steps" ++ dq ++ " in analysis, guided by the following criteria:

    * **Actionable and Looker-Executable:** Queries must be feasible within the Looker platform.
    * **Targeted Investigation:** Queries should build upon the provided queryResults and querySummaries, avoiding repetition of existing analyses.
    * **Alignment with Next Steps:** Queries must directly relate to the analytical " ++ dq ++ "next steps" ++ dq ++ " outlined in `".

Definition querySuggestionsPromptData_text_1 : string :=
  "` and the context provided within `".

Definition querySuggestionsPromptData_text_2 : string :=
  "`.
    * **Date Filtering:** Include a date filter in every query. If a relevant date range isn't specified in the context, default to the " ++ dq ++ "last 30 days." ++ dq ++ "

    Here's the data context:

    * **Current Data:** `".

Definition querySuggestionsPromptData_text_3 : string :=
  "`
    * **Previous Analysis and Next Steps:** `".

Definition querySuggestionsPromptData_text_4 : string :=
  "`
    * **Next Step Instructions:** `".

Definition querySuggestionsPromptData_text_5 : string :=
  "`

    Output Format:

    Provide your response in the following JSON format, containing exactly three querySuggestion elements:

    '''json
    [
        {" ++ dq ++ "querySuggestion" ++ dq ++ ": " ++ dq ++ "Show me the top XXX entries for YYY on October 13th, 2024" ++ dq ++ "},
        {" ++ dq ++ "querySuggestion" ++ dq ++ ": " ++ dq ++ "What are the lowest values for ZZZ, grouped by AAA, in the last 30 days?" ++ dq ++ "},
        {" ++ dq ++ "querySuggestion" ++ dq ++ ": " ++ dq ++ "What is the productivity and standard deviation for the XXX facility for the past 3 months?" ++ dq ++ "}
    ]
    '''
    ".

(** ** Middleware *)

Definition verifyClientSecret (cfg : config) (req : request)
    (next : M response) : M response :=
  (let clientSecret := lookup "client_secret" (body req) in
   emit (ConsoleLog [ArgValue (JStr "checking client secret");
                     ArgValue clientSecret;
                     ArgValue (constant_value (storedClientSecret cfg))]) ;;
   if strict_eq clientSecret (storedClientSecret cfg) then next
   else ret forbidden)%js.

(** ** Prompts *)

(** The conditional inside the query details:
    [note_text !== '' || note_text !== null ? "Query Note: " + note_text : ''] *)
Definition note_segment (note_text : JsVal) : completion string :=
  if strict_neq note_text (CString "") || strict_neq note_text CNull
  then (text <~ ToString note_text ;; Normal ("Query Note: " ++ text))%js
  else Normal "".

Definition context (query description nextStepsInstructions : JsVal)
  : completion string :=
  (instructions <~ ToString (or_else nextStepsInstructions (JStr "")) ;;
   detail <~ ToString (or_else description (JStr "")) ;;
   title <~ get query "title" ;;
   title <~ ToString title ;;
   note_text <~ get query "note_text" ;;
   note <~ note_segment note_text ;;
   queryBody <~ get query "queryBody" ;;
   fields <~ get queryBody "fields" ;;
   fields <~ ToString fields ;;
   queryData <~ get query "queryData" ;;
   data <~ ToString (JSON_stringify queryData) ;;
   Normal (context_text_0 ++ instructions
        ++ context_text_1 ++ detail
        ++ context_text_2 ++ title
        ++ context_text_3 ++ note
        ++ context_text_4 ++ fields
        ++ context_text_5 ++ data
        ++ context_text_6))%js.

Definition queryPrompt (query description nextStepsInstructions : JsVal)
  : completion string :=
  (context <~ context query description nextStepsInstructions ;;
   Normal (queryPrompt_text_0 ++ context ++ queryPrompt_text_1))%js.

Definition finalPromptData (querySummaries : string)
    (nextStepsInstructions : JsVal) : completion string :=
  (instructions <~ ToString nextStepsInstructions ;;
   Normal (finalPromptData_text_0 ++ querySummaries
        ++ finalPromptData_text_1 ++ instructions
        ++ finalPromptData_text_2))%js.

(** The dashboard prompt from the raw summaries: the join, then the
    template. *)
Definition summaryPromptText (rawQuerySummaries nextStepsInstructions : JsVal)
  : completion string :=
  (querySummaries <~ call_join rawQuerySummaries nl ;;
   finalPromptData querySummaries nextStepsInstructions)%js.

Definition querySuggestionsPromptData
    (queryResults querySummaries nextStepsInstructions : JsVal)
  : completion string :=
  (steps <~ ToString nextStepsInstructions ;;
   context <~ ToString querySummaries ;;
   results <~ ToString queryResults ;;
   summaries <~ ToString querySummaries ;;
   instructions <~ ToString nextStepsInstructions ;;
   Normal (querySuggestionsPromptData_text_0 ++ steps
        ++ querySuggestionsPromptData_text_1 ++ context
        ++ querySuggestionsPromptData_text_2 ++ results
        ++ querySuggestionsPromptData_text_3 ++ summaries
        ++ querySuggestionsPromptData_text_4 ++ instructions
        ++ querySuggestionsPromptData_text_5))%js.

(** ** Model gateway *)

(** [formattedResp.response.candidates[0].content.parts[0].text], the
    return expression of the three functions below. *)
Definition candidate_text (formattedResp : JsVal) : completion JsVal :=
  (response <~ get formattedResp "response" ;;
   candidates <~ get response "candidates" ;;
   candidate <~ get0 candidates ;;
   content <~ get candidate "content" ;;
   parts <~ get content "parts" ;;
   part <~ get0 parts ;;
   get part "text")%js.

(** [await generativeModel.generateContent({contents: [{role: 'user',
    parts: [{text}]}]})] *)
Definition callModel (w : world) (text : string) : M JsVal :=
  (emit (GenerateContent text) ;; lift (generateContent w text))%js.

Definition generateQuerySummary (w : world)
    (query description nextStepsInstructions : JsVal) : M JsVal :=
  (queryPrompt <- lift (queryPrompt query description nextStepsInstructions) ;;
   formattedResp <- callModel w queryPrompt ;;
   lift (candidate_text formattedResp))%js.

Definition generateSummary (w : world)
    (rawQuerySummaries nextStepsInstructions : JsVal) : M JsVal :=
  (emit (ConsoleLog [ArgValue rawQuerySummaries]) ;;
   text <- lift (summaryPromptText rawQuerySummaries nextStepsInstructions) ;;
   formattedResp <- callModel w text ;;
   lift (candidate_text formattedResp))%js.

Definition generateQuerySuggestions (w : world)
    (queryResults querySummaries nextStepsInstructions : JsVal) : M JsVal :=
  (text <- lift (querySuggestionsPromptData queryResults querySummaries
                                           nextStepsInstructions) ;;
   querySuggestionsResp <- callModel w text ;;
   lift (candidate_text querySuggestionsResp))%js.

(** ** Routes *)

Definition handle_generateQuerySummary (w : world) (req : request) : M response :=
  (let query := lookup "query" (body req) in
     let description := lookup "description" (body req) in
     let nextStepsInstructions := lookup "nextStepsInstructions" (body req) in
     try_catch
       (summary <- generateQuerySummary w query description nextStepsInstructions ;;
        ret {| status := 200; payload_of := Json "summary" summary |})
       (fun e =>
          emit (ConsoleLog [ArgValue (JStr "There was an error processing the individual query summary: ");
                            ArgError e]) ;;
          ret internal_error))%js.

Definition handle_generateSummary (w : world) (req : request) : M response :=
  (let querySummaries := lookup "querySummaries" (body req) in
     let nextStepsInstructions := lookup "nextStepsInstructions" (body req) in
     try_catch
       (summary <- generateSummary w querySummaries nextStepsInstructions ;;
        ret {| status := 200; payload_of := Json "summary" summary |})
       (fun e =>
          emit (ConsoleLog [ArgValue (JStr "There was an error processing the dashboard summary: ");
                            ArgError e]) ;;
          ret internal_error))%js.

Definition handle_generateQuerySuggestions (w : world) (req : request) : M response :=
  (let queryResults := lookup "queryResults" (body req) in
     let querySummaries := lookup "querySummaries" (body req) in
     let nextStepsInstructions := lookup "nextStepsInstructions" (body req) in
     try_catch
       (suggestions <- generateQuerySuggestions w queryResults querySummaries
                                                nextStepsInstructions ;;
        ret {| status := 200; payload_of := Json "suggestions" suggestions |})
       (fun e =>
          emit (ConsoleLog [ArgValue (JStr "There was an error processing the query suggestions: ");
                            ArgError e]) ;;
          ret internal_error))%js.

(** [app.post(path, verifyClientSecret, handler)] *)
Definition post_generateQuerySummary (cfg : config) (w : world)
    (req : request) : M response :=
  verifyClientSecret cfg req (handle_generateQuerySummary w req).

Definition post_generateSummary (cfg : config) (w : world)
    (req : request) : M response :=
  verifyClientSecret cfg req (handle_generateSummary w req).

Definition post_generateQuerySuggestions (cfg : config) (w : world)
    (req : request) : M response :=
  verifyClientSecret cfg req (handle_generateQuerySuggestions w req).

Definition handler (w : world) (r : route) (req : request) : M response :=
  match r with
  | GenerateQuerySummary => handle_generateQuerySummary w req
  | GenerateSummary => handle_generateSummary w req
  | GenerateQuerySuggestions => handle_generateQuerySuggestions w req
  end.

Definition app (cfg : config) (w : world) (r : route) (req : request) : M response :=
  match r with
  | GenerateQuerySummary => post_generateQuerySummary cfg w req
  | GenerateSummary => post_generateSummary cfg w req
  | GenerateQuerySuggestions => post_generateQuerySuggestions cfg w req
  end.

(** The text the handler of a route sends to the model, and the field
    of its JSON reply. *)
Definition rendered_prompt (r : route) (req : request) : completion string :=
  let b := body req in
  match r with
  | GenerateQuerySummary =>
      queryPrompt (lookup "query" b) (lookup "description" b)
                  (lookup "nextStepsInstructions" b)
  | GenerateSummary =>
      summaryPromptText (lookup "querySummaries" b)
                        (lookup "nextStepsInstructions" b)
  | GenerateQuerySuggestions =>
      querySuggestionsPromptData (lookup "queryResults" b)
        (lookup "querySummaries" b) (lookup "nextStepsInstructions" b)
  end.

(** The fixed pieces of each template, in order. *)
Definition query_pieces : list string :=
  [queryPrompt_text_0 ++ context_text_0; context_text_1; context_text_2;
   context_text_3; context_text_4; context_text_5;
   context_text_6 ++ queryPrompt_text_1].

Definition summary_pieces : list string :=
  [finalPromptData_text_0; finalPromptData_text_1; finalPromptData_text_2].

Definition suggestion_pieces : list string :=
  [querySuggestionsPromptData_text_0; querySuggestionsPromptData_text_1;
   querySuggestionsPromptData_text_2; querySuggestionsPromptData_text_3;
   querySuggestionsPromptData_text_4; querySuggestionsPromptData_text_5].

Definition gate_log (cfg : config) (req : request) : event :=
  ConsoleLog [ArgValue (JStr "checking client secret");
              ArgValue (lookup "client_secret" (body req));
              ArgValue (constant_value (storedClientSecret cfg))].

(** What a handler has logged before it renders its prompt, the label of
    its error log, and how it ends: a JSON reply, or the log of the
    caught error and the fixed 500 reply. *)
Definition prelog (r : route) (req : request) : list event :=
  match r with
  | GenerateSummary => [ConsoleLog [ArgValue (lookup "querySummaries" (body req))]]
  | _ => []
  end.

Definition error_label (r : route) : string :=
  match r with
  | GenerateQuerySummary => "There was an error processing the individual query summary: "
  | GenerateSummary => "There was an error processing the dashboard summary: "
  | GenerateQuerySuggestions => "There was an error processing the query suggestions: "
  end.

Definition finish (r : route) (t : list event) (c : completion JsVal) : M response :=
  match c with
  | Normal v => (t, Normal {| status := 200; payload_of := Json (result_field r) v |})
  | Throw e =>
      ((t ++ [ConsoleLog [ArgValue (JStr (error_label r)); ArgError e]])%list,
       Normal internal_error)
  end.

End SDK.

(** * The REST service *)

Module REST.

(** What [fetch] resolves to. *)
Record http_response := {
  resp_status : Z;
  resp_text : completion string;    (* await response.text() *)
  resp_json : completion JsVal      (* await response.json() *)
}.

(** [response.ok]: the status is in the range 200-299. *)
Definition resp_ok (r : http_response) : bool :=
  ((200 <=? resp_status r) && (resp_status r <=? 299))%Z.

(** The credential helper and the model endpoint: the [token] field of
    the access token the client hands out, and the reply to a POST with
    the given Authorization header and user message text. *)
Record world := {
  access_token : completion JsVal;
  fetch : string -> string -> completion http_response
}.

(** ** Fixed text of the templates, between the interpolations *)

Definition queryPrompt_text_0 : string :=
  "
    You are an expert Looker dashboard analyst tasked with summarizing dashboard queries and providing actionable next steps in Markdown format.

    **Strict Formatting and Content Requirements:**

    * **Markdown Output:** All responses must be formatted using Markdown. Supported elements include headings, bold, italic, links, tables, lists, code blocks, and blockquotes.
    * **No Images:** Do not include or attempt to render images.
    * **Numerical Formatting:** Format numerical values as percentages or dollar amounts (rounded to the nearest cent).
    * **No Indentation:** Do not indent any part of your response.
    * **Query-Specific Sections:** Each dashboard query summary should adhere to the following structure, starting on a new line:
        * `## Query Name`: Use the " ++ dq ++ "Query Title" ++ dq ++ " from the provided context.
        * `Description`: A concise (2-4 sentences) paragraph describing the query.
        * `> Summary`: A blockquote (3-5 sentences) summarizing the query results for user comprehension.
        * `## Next Steps`: A bulleted list of 2-3 actionable next steps based on the query summary.
    * **Newlines and Dividers:** Each query summary must start on a new line and end with a horizontal divider (`---`).

    **Context:**
    
    Summary style/specialized instructions: ".

Definition queryPrompt_text_1 : string :=
  "
    Dashboard Detail: ".

Definition queryPrompt_text_2 : string :=
  " 

    Query Details: " ++ dq ++ "Query Title: ".

Definition queryPrompt_text_3 : string :=
  " 
    ".

Definition queryPrompt_text_4 : string :=
  " 
    Query Fields: ".

Definition queryPrompt_text_5 : string :=
  " 
    Query Data: ".

Definition queryPrompt_text_6 : string :=
  "" ++ dq ++ "

    **Example Output (Use as a Template, Not Verbatim):**

    ```markdown
    ## Web Traffic Over Time

    This query details the amount of web traffic received to the website over the past 6 months. It includes a web traffic source field of organic, search, and display, as well as an amount field detailing the number of users from those sources.

    > It appears that search has consistently driven the highest user traffic, with 9875 users in the past month and a peak in December at 1000 unique users. Organic traffic is the second highest, while display traffic is significantly lower. Display traffic started strong but declined steadily. There was a notable 23% spike in organic traffic in March.

    ## Next Steps
    * Investigate the 23% organic traffic spike in March to identify potential causes (e.g., marketing campaign, website error).
    * Segment search traffic by campaign source to identify high-performing strategies.
    * Analyze display traffic patterns to determine the factors contributing to its decline and explore optimization strategies.
    ---
    ```
    ".

Definition finalPromptData_text_0 : string :=
  "
    You are a specialized answering assistant that can summarize a Looker dashboard and the underlying data and propose operational next steps drawing conclusions from the Query Details listed above. Follow the instructions below:

    Please highlight the findings of all of the query data here. All responses MUST be based on the actual information returned by these queries: 
                                     
    data: ".

Definition finalPromptData_text_1 : string :=
  "

    For example, use the names of the locations in the data series (like Seattle, Indianapolis, Chicago, etc) in recommendations regarding locations. Use the name of a process if discussing processes. Don't use row numbers to refer to any facility, process or location. This information should be sourced from the above data.
    Surface the most important or notable details and combine next steps recommendations into one bulleted list of 2-6 suggestions. 

    --------------
    Here is an output format Example:
    ----------------
    
    ## Web Traffic Over Time 

    This query details the amount of web traffic received to the website over the past 6 months. It includes a web traffic source field of organic, search and display
    as well as an amount field detailing the amount of people coming from those sources to the website. 

    
    > It looks like search historically has been driving the most user traffic with 9875 users over the past month with peak traffic happening in december at 1000 unique users.
    Organic comes in second and display a distant 3rd. It seems that display got off to a decent start in the year, but has decreased in volume consistently into the end of the year.
    There appears to be a large spike in organic traffic during the month of March a 23% increase from the rest of the year.

    

    
    ## Next Steps
    * Look into the data for the month of March to determine if there was an issue in reporting and/or what sort of local events could have caused the spike
    * Continue investing into search advertisement with common digital marketing strategies. IT would also be good to identify/breakdown this number by campaign source and see what strategies have been working well for Search.
    * Display seems to be dropping off and variable. Use only during select months and optimize for heavily trafficed areas with a good demographic for the site retention.

    

    -----------

    Please add actionable next steps, both for immediate intervention, improved data gathering and further analysis of existing data.
    Here are some tips for creating actionable next steps: 

    -----------
    ".

Definition finalPromptData_text_2 : string :=
  "
    -----------
    
    ".

Definition querySuggestionsPromptData_text_0 : string :=
  "
    You are an expert Looker analyst tasked with generating actionable next-step investigation queries in JSON format.

    Your goal is to provide a JSON array of strings, where each string represents a potential Looker query or data exploration suggestion. These suggestions should directly address the " ++ dq ++ "next steps" ++ dq ++ " in analysis, guided by the following criteria:

    * **Actionable and Looker-Executable:** Queries must be feasible within the Looker platform.
    * **Targeted Investigation:** Queries should build upon the provided queryResults and querySummaries, avoiding repetition of existing analyses.
    * **Alignment with Next Steps:** Queries must directly relate to the analytical " ++ dq ++ "next steps" ++ dq ++ " outlined in `".

Definition querySuggestionsPromptData_text_1 : string :=
  "` and the context provided within `".

Definition querySuggestionsPromptData_text_2 : string :=
  "`.
    * **Date Filtering:** Include a date filter in every query. If a relevant date range isn't specified in the context, default to the " ++ dq ++ "last 30 days." ++ dq ++ "

    Here's the data context:

    * **Current Data:** `".

Definition querySuggestionsPromptData_text_3 : string :=
  "`
    * **Previous Analysis and Next Steps:** `".

Definition querySuggestionsPromptData_text_4 : string :=
  "`
    * **Next Step Instructions:** `".

Definition querySuggestionsPromptData_text_5 : string :=
  "`

    Output Format:

    Provide your response in the following JSON format, containing exactly three querySuggestion elements:

    ```json
    [
        {" ++ dq ++ "querySuggestion" ++ dq ++ ": " ++ dq ++ "Show me the top XXX entries for YYY on October 13th, 2024" ++ dq ++ "},
        {" ++ dq ++ "querySuggestion" ++ dq ++ ": " ++ dq ++ "What are the lowest values for ZZZ, grouped by AAA, in the last 30 days?" ++ dq ++ "},
        {" ++ dq ++ "querySuggestion" ++ dq ++ ": " ++ dq ++ "What is the productivity and standard deviation for the XXX facility for the past 3 months?" ++ dq ++ "}
    ]
    ```
    ".

(** ** Middleware *)

Definition verifyClientSecret (cfg : config) (req : request)
    (next : M response) : M response :=
  let clientSecret := lookup "client_secret" (body req) in
  if strict_eq clientSecret (storedClientSecret cfg) then next
  else ret forbidden.

(** ** Credential provider *)

Definition getAccessToken (w : world) : M JsVal :=
  (emit AccessTokenRequest ;;
   try_catch (lift (access_token w))
     (fun error =>
        emit (ConsoleError [ArgValue (JStr "Error getting access token:");
                            ArgError error]) ;;
        throw error))%js.

(** ** Prompts *)

(** The conditional inside the query details:
    [note_text !== '' && note_text !== null ? "Query Note: " + note_text : ''] *)
Definition note_segment (note_text : JsVal) : completion string :=
  if strict_neq note_text (CString "") && strict_neq note_text CNull
  then (text <~ ToString note_text ;; Normal ("Query Note: " ++ text))%js
  else Normal "".

Definition getQuerySummaryPrompt (query description nextStepsInstructions : JsVal)
  : completion string :=
  (instructions <~ ToString (or_else nextStepsInstructions (JStr "")) ;;
   detail <~ ToString (or_else description (JStr "")) ;;
   title <~ get query "title" ;;
   title <~ ToString title ;;
   note_text <~ get query "note_text" ;;
   note <~ note_segment note_text ;;
   queryBody <~ get query "queryBody" ;;
   fields <~ get queryBody "fields" ;;
   fields <~ ToString fields ;;
   queryData <~ get query "queryData" ;;
   data <~ ToString (JSON_stringify queryData) ;;
   Normal (queryPrompt_text_0 ++ instructions
        ++ queryPrompt_text_1 ++ detail
        ++ queryPrompt_text_2 ++ title
        ++ queryPrompt_text_3 ++ note
        ++ queryPrompt_text_4 ++ fields
        ++ queryPrompt_text_5 ++ data
        ++ queryPrompt_text_6))%js.

Definition finalPromptData (querySummaries nextStepsInstructions : JsVal)
  : completion string :=
  (joined <~ call_join querySummaries nl ;;
   instructions <~ ToString nextStepsInstructions ;;
   Normal (finalPromptData_text_0 ++ joined
        ++ finalPromptData_text_1 ++ instructions
        ++ finalPromptData_text_2))%js.

Definition querySuggestionsPromptData
    (queryResults querySummaries nextStepsInstructions : JsVal)
  : completion string :=
  (steps <~ ToString nextStepsInstructions ;;
   context <~ ToString querySummaries ;;
   results <~ ToString queryResults ;;
   summaries <~ ToString querySummaries ;;
   instructions <~ ToString nextStepsInstructions ;;
   Normal (querySuggestionsPromptData_text_0 ++ steps
        ++ querySuggestionsPromptData_text_1 ++ context
        ++ querySuggestionsPromptData_text_2 ++ results
        ++ querySuggestionsPromptData_text_3 ++ summaries
        ++ querySuggestionsPromptData_text_4 ++ instructions
        ++ querySuggestionsPromptData_text_5))%js.

(** ** Model gateway *)

(** [data.candidates[0]?.content?.parts[0]?.text || ''] *)
Definition candidate_text (data : JsVal) : completion JsVal :=
  (candidates <~ get data "candidates" ;;
   candidate <~ get0 candidates ;;
   text <~ (if is_nullish candidate then Normal JUndefined
            else content <~ get candidate "content" ;;
                 if is_nullish content then Normal JUndefined
                 else parts <~ get content "parts" ;;
                      part <~ get0 parts ;;
                      if is_nullish part then Normal JUndefined
                      else get part "text") ;;
   Normal (or_else text (JStr "")))%js.

Definition status_text (n : Z) : string := NilZero.string_of_int (Z.to_int n).

(** The part the three functions below repeat word for word: the POST to
    the endpoint with the bearer token, the two failure checks, and the
    extraction of the text. *)
Definition callModel (w : world) (accessToken : JsVal) (text : string) : M JsVal :=
  (emit (Fetch ("Bearer " ++ text_of accessToken) text) ;;
   response <- lift (fetch w ("Bearer " ++ text_of accessToken) text) ;;
   if negb (resp_ok response) then
     errorText <- lift (resp_text response) ;;
     throw (Error ("API request failed with status "
                   ++ status_text (resp_status response) ++ ": " ++ errorText))
   else
     data <- lift (resp_json response) ;;
     error <- lift (get data "error") ;;
     if ToBoolean error then
       message <- lift (get error "message") ;;
       throw (Error ("Vertex AI API error: " ++ text_of message))
     else lift (candidate_text data))%js.

Definition generateQuerySummary (w : world)
    (query description nextStepsInstructions : JsVal) : M JsVal :=
  (accessToken <- getAccessToken w ;;
   text <- lift (getQuerySummaryPrompt query description nextStepsInstructions) ;;
   callModel w accessToken text)%js.

Definition generateSummary (w : world)
    (querySummaries nextStepsInstructions : JsVal) : M JsVal :=
  (accessToken <- getAccessToken w ;;
   text <- lift (finalPromptData querySummaries nextStepsInstructions) ;;
   callModel w accessToken text)%js.

Definition generateQuerySuggestions (w : world)
    (queryResults querySummaries nextStepsInstructions : JsVal) : M JsVal :=
  (accessToken <- getAccessToken w ;;
   text <- lift (querySuggestionsPromptData queryResults querySummaries
                                           nextStepsInstructions) ;;
   callModel w accessToken text)%js.

(** ** Routes *)

Definition handle_generateQuerySummary (w : world) (req : request) : M response :=
  (let query := lookup "query" (body req) in
     let description := lookup "description" (body req) in
     let nextStepsInstructions := lookup "nextStepsInstructions" (body req) in
     try_catch
       (summary <- generateQuerySummary w query description nextStepsInstructions ;;
        ret {| status := 200; payload_of := Json "summary" summary |})
       (fun e =>
          emit (ConsoleError [ArgValue (JStr "Error in /generateQuerySummary:");
                              ArgError e]) ;;
          ret internal_error))%js.

Definition handle_generateSummary (w : world) (req : request) : M response :=
  (let querySummaries := lookup "querySummaries" (body req) in
     let nextStepsInstructions := lookup "nextStepsInstructions" (body req) in
     try_catch
       (summary <- generateSummary w querySummaries nextStepsInstructions ;;
        ret {| status := 200; payload_of := Json "summary" summary |})
       (fun e =>
          emit (ConsoleError [ArgValue (JStr "Error in /generateSummary:");
                              ArgError e]) ;;
          ret internal_error))%js.

Definition handle_generateQuerySuggestions (w : world) (req : request) : M response :=
  (let queryResults := lookup "queryResults" (body req) in
     let querySummaries := lookup "querySummaries" (body req) in
     let nextStepsInstructions := lookup "nextStepsInstructions" (body req) in
     try_catch
       (suggestions <- generateQuerySuggestions w queryResults querySummaries
                                                nextStepsInstructions ;;
        ret {| status := 200; payload_of := Json "suggestions" suggestions |})
       (fun e =>
          emit (ConsoleError [ArgValue (JStr "Error in /generateQuerySuggestions:");
                              ArgError e]) ;;
          ret internal_error))%js.

(** [app.post(path, verifyClientSecret, handler)] *)
Definition post_generateQuerySummary (cfg : config) (w : world)
    (req : request) : M response :=
  verifyClientSecret cfg req (handle_generateQuerySummary w req).

Definition post_generateSummary (cfg : config) (w : world)
    (req : request) : M response :=
  verifyClientSecret cfg req (handle_generateSummary w req).

Definition post_generateQuerySuggestions (cfg : config) (w : world)
    (req : request) : M response :=
  verifyClientSecret cfg req (handle_generateQuerySuggestions w req).

Definition handler (w : world) (r : route) (req : request) : M response :=
  match r with
  | GenerateQuerySummary => handle_generateQuerySummary w req
  | GenerateSummary => handle_generateSummary w req
  | GenerateQuerySuggestions => handle_generateQuerySuggestions w req
  end.

Definition app (cfg : config) (w : world) (r : route) (req : request) : M response :=
  match r with
  | GenerateQuerySummary => post_generateQuerySummary cfg w req
  | GenerateSummary => post_generateSummary cfg w req
  | GenerateQuerySuggestions => post_generateQuerySuggestions cfg w req
  end.

(** The text the handler of a route sends to the model, and the field
    of its JSON reply. *)
Definition rendered_prompt (r : route) (req : request) : completion string :=
  let b := body req in
  match r with
  | GenerateQuerySummary =>
      getQuerySummaryPrompt (lookup "query" b) (lookup "description" b)
                          (lookup "nextStepsInstructions" b)
  | GenerateSummary =>
      finalPromptData (lookup "querySummaries" b)
                                (lookup "nextStepsInstructions" b)
  | GenerateQuerySuggestions =>
      querySuggestionsPromptData (lookup "queryResults" b)
        (lookup "querySummaries" b) (lookup "nextStepsInstructions" b)
  end.

(** The fixed pieces of each template, in order. *)
Definition query_pieces : list string :=
  [queryPrompt_text_0; queryPrompt_text_1; queryPrompt_text_2;
   queryPrompt_text_3; queryPrompt_text_4; queryPrompt_text_5;
   queryPrompt_text_6].

Definition summary_pieces : list string :=
  [finalPromptData_text_0; finalPromptData_text_1; finalPromptData_text_2].

Definition suggestion_pieces : list string :=
  [querySuggestionsPromptData_text_0; querySuggestionsPromptData_text_1;
   querySuggestionsPromptData_text_2; querySuggestionsPromptData_text_3;
   querySuggestionsPromptData_text_4; querySuggestionsPromptData_text_5].

(** The label of a handler's error log, and how it ends: a JSON reply, or
    the log of the caught error and the fixed 500 reply. *)
Definition error_label (r : route) : string :=
  match r with
  | GenerateQuerySummary => "Error in /generateQuerySummary:"
  | GenerateSummary => "Error in /generateSummary:"
  | GenerateQuerySuggestions => "Error in /generateQuerySuggestions:"
  end.

Definition finish (r : route) (t : list event) (c : completion JsVal) : M response :=
  match c with
  | Normal v => (t, Normal {| status := 200; payload_of := Json (result_field r) v |})
  | Throw e =>
      ((t ++ [ConsoleError [ArgValue (JStr (error_label r)); ArgError e]])%list,
       Normal internal_error)
  end.

Definition bearer (accessToken : JsVal) : string := "Bearer " ++ text_of accessToken.

End REST.

(** * Sample configuration, requests and replies *)

Definition sample_cfg : config := {| GENAI_CLIENT_SECRET := Some "s3cret" |}.
Definition unset_cfg : config := {| GENAI_CLIENT_SECRET := None |}.

Definition sample_query (note : JsVal) : JsVal :=
  JObj [("title", JStr "Web Traffic");
        ("note_text", note);
        ("queryBody", JObj [("fields", JStr "source, amount")]);
        ("queryData", JArr [JObj [("source", JStr "search");
                                  ("amount", JNum {| number_text := "9875";
                                                     number_finite := true;
                                                     number_truthy := true |})]])].

Definition query_without_note : JsVal :=
  JObj [("title", JStr "Web Traffic");
        ("queryBody", JObj [("fields", JStr "source, amount")]);
        ("queryData", JArr [])].

(** An authorized request with every field of every route. *)
Definition full_request : request :=
  {| body := [("client_secret", JStr "s3cret");
              ("query", sample_query (JStr "traffic by source"));
              ("description", JStr "Marketing overview");
              ("nextStepsInstructions", JStr "Be specific");
              ("querySummaries", JArr [JStr "A"; JStr "B"]);
              ("queryResults", JStr "rows")] |}.

(** Authorized requests that leave fields out. *)
Definition secret_only_request : request :=
  {| body := [("client_secret", JStr "s3cret")] |}.

Definition query_only_request : request :=
  {| body := [("client_secret", JStr "s3cret");
              ("query", sample_query (JStr "traffic by source"))] |}.

Definition summaries_only_request : request :=
  {| body := [("client_secret", JStr "s3cret");
              ("querySummaries", JArr [JStr "A"; JStr "B"])] |}.

Definition empty_request : request := {| body := [] |}.

Definition wrong_secret_request : request :=
  {| body := [("client_secret", JStr "guess");
              ("querySummaries", JArr [JStr "A"; JStr "B"])] |}.

(** Replies of the model. *)
Definition reply_with_text (t : string) : JsVal :=
  JObj [("candidates",
         JArr [JObj [("content", JObj [("role", JStr "model");
                                       ("parts", JArr [JObj [("text", JStr t)]])])]])].

Definition reply_without_candidates : JsVal := JObj [("candidates", JArr [])].

Definition sdk_world (reply : JsVal) : SDK.world :=
  {| SDK.generateContent := fun _ => Normal (JObj [("response", reply)]) |}.

Definition rest_world (code : Z) (text : string) (data : completion JsVal)
  : REST.world :=
  {| REST.access_token := Normal (JStr "ya29.token");
     REST.fetch := fun _ _ =>
       Normal {| REST.resp_status := code;
                 REST.resp_text := Normal text;
                 REST.resp_json := data |} |}.

(** The value of an environment variable: a string, or undefined. *)
Definition env_read (e : option string) : JsVal := constant_value (env_value e).

(** * The extension's client of the service *)

(** Computations that log and call a proxy, over any kind of event. *)
Section Writer.
Context {E : Type}.

Definition W (A : Type) : Type := (list E * completion A)%type.

Definition wlift {A} (c : completion A) : W A := ([], c).
Definition wemit (e : E) : W unit := ([e], Normal tt).

Definition wbind {A B} (m : W A) (f : A -> W B) : W B :=
  match m with
  | (t, Normal a) => let (t', r) := f a in ((t ++ t')%list, r)
  | (t, Throw e) => (t, Throw e)
  end.

Definition wcatch {A} (m : W A) (h : exn -> W A) : W A :=
  match m with
  | (t, Normal a) => (t, Normal a)
  | (t, Throw e) => let (t', r) := h e in ((t ++ t')%list, r)
  end.

End Writer.

Declare Scope client_scope.
Delimit Scope client_scope with client.
Notation "x <- c1 ;; c2" := (wbind c1 (fun x => c2))
  (at level 61, c1 at next level, right associativity) : client_scope.
Notation "c1 ;; c2" := (wbind c1 (fun _ => c2))
  (at level 61, right associativity) : client_scope.

Module Client.

Inductive proxy := FetchProxy | ServerProxy.

(** The extension SDK: its two proxies, called with a URL and the text of
    the request body, resolve to a response or reject; and the tag that
    stands for a secret kept by the host. *)
Record extensionSDK := {
  call_proxy : proxy -> string -> string -> completion JsVal;
  createSecretKeyTag : string -> JsVal
}.

Inductive event :=
| Log (args : list logarg)
| LogError (args : list logarg)
| Post (via : proxy) (url : string) (request_body : string).

Definition is_local (restfulService : string) : bool :=
  String.eqb restfulService "http://localhost:5000".

(** [extensionSDK[...](`${restfulService}/generatePerspectiveAnalytics`,
    {method: 'POST', headers, body: JSON.stringify({query, client_secret})})] *)
Definition request_text (sdk : extensionSDK) (secret_env : option string)
    (userQuestion : JsVal) (restfulService : string) : string :=
  text_of
    (JSON_stringify
       (JObj [("query", userQuestion);
              ("client_secret",
               if is_local restfulService then env_read secret_env
               else createSecretKeyTag sdk "genai_client_secret")])).

Definition post (sdk : extensionSDK) (secret_env : option string)
    (userQuestion : JsVal) (restfulService : string) : W JsVal :=
  (let via := if is_local restfulService then FetchProxy else ServerProxy in
   let url := restfulService ++ "/generatePerspectiveAnalytics" in
   let text := request_text sdk secret_env userQuestion restfulService in
   wemit (Post via url text) ;;
   wlift (call_proxy sdk via url text))%client.

Definition failure_label : JsVal := JStr "Error generating prescriptive analysis:".

(** src/utils/fetchPrescriptiveAnalysis.ts *)
Definition fetchPrescriptiveAnalysis (sdk : extensionSDK) (secret_env : option string)
    (userQuestion : JsVal) (restfulService : string) : W JsVal :=
  (wcatch
     (response <- post sdk secret_env userQuestion restfulService ;;
      ok <- wlift (get response "ok") ;;
      if ToBoolean ok then
        response_body <- wlift (get response "body") ;;
        wlift (get response_body "suggestions")
      else
        statusText <- wlift (get response "statusText") ;;
        wemit (LogError [ArgValue failure_label; ArgValue statusText]) ;;
        wlift (Normal JNull))
     (fun error =>
        wemit (LogError [ArgValue failure_label; ArgError error]) ;;
        wlift (Normal JNull)))%client.

(** The other copy of the function: it logs its arguments and the
    response, and returns the whole body of the response. *)
Definition fetchPrescriptiveAnalysis_logged (sdk : extensionSDK)
    (secret_env : option string) (userQuestion : JsVal) (restfulService : string)
  : W JsVal :=
  (wemit (Log [ArgValue (JStr "fetchPrescriptiveAnalysis userQuestion");
               ArgValue userQuestion]) ;;
   wemit (Log [ArgValue (JStr restfulService)]) ;;
   wcatch
     (response <- post sdk secret_env userQuestion restfulService ;;
      wemit (Log [ArgValue (JStr "fetchPrescriptiveAnalysis response");
                  ArgValue response]) ;;
      ok <- wlift (get response "ok") ;;
      if ToBoolean ok then wlift (get response "body")
      else
        statusText <- wlift (get response "statusText") ;;
        wemit (LogError [ArgValue failure_label; ArgValue statusText]) ;;
        wlift (Normal JNull))
     (fun error =>
        wemit (LogError [ArgValue failure_label; ArgError error]) ;;
        wlift (Normal JNull)))%client.

Definition posts (t : list event) : list event :=
  filter (fun e => match e with Post _ _ _ => true | _ => false end) t.

End Client.

(** * Requests that reach a decoded reply of the model *)

(** An authorized request to the REST service whose token, prompt and POST
    succeed, with a success status, a body that decodes to [data], and no
    truthy [error] field in it. *)
Definition rest_decoded_reply (cfg : config) (w : REST.world) (r : route)
    (req : request) (data : JsVal) : Prop :=
  passes cfg req = true /\
  exists (tok : JsVal) (p : string) (resp : REST.http_response) (err : JsVal),
    REST.access_token w = Normal tok /\
    REST.rendered_prompt r req = Normal p /\
    REST.fetch w (REST.bearer tok) p = Normal resp /\
    REST.resp_ok resp = true /\
    REST.resp_json resp = Normal data /\
    get data "error" = Normal err /\
    ToBoolean err = false.

(** An authorized request to the SDK service whose prompt is rendered and
    whose model call resolves to an object with [data] as its [response]. *)
Definition sdk_decoded_reply (cfg : config) (w : SDK.world) (r : route)
    (req : request) (data : JsVal) : Prop :=
  passes cfg req = true /\
  exists (p : string) (formattedResp : JsVal),
    SDK.rendered_prompt r req = Normal p /\
    SDK.generateContent w p = Normal formattedResp /\
    get formattedResp "response" = Normal data.

(** More sample data. *)
Definition rest_world_without_token (e : exn) : REST.world :=
  {| REST.access_token := Throw e;
     REST.fetch := fun _ _ => Throw (Error "unreachable") |}.

Definition reply_with_error (message : string) : JsVal :=
  JObj [("error", JObj [("code", JStr "429"); ("message", JStr message)])].

Definition unreadable_query_request : request :=
  {| body := [("client_secret", JStr "s3cret");
              ("query", JObj [("title", JStr "Web Traffic")])] |}.

Definition sample_sdk (response : completion JsVal) : Client.extensionSDK :=
  {| Client.call_proxy := fun _ _ _ => response;
     Client.createSecretKeyTag := fun name => JStr ("{{" ++ name ++ "}}") |}.

(** * Notions for the statements *)

(** The character U+000A. *)
Definition line_feed : string := String (ascii_of_nat 10) EmptyString.

(** Two texts that differ at a position both of them have. *)
Fixpoint diverge (a b : string) : bool :=
  match a, b with
  | String x a', String y b' => if Ascii.eqb x y then diverge a' b' else true
  | _, _ => false
  end.

(** The values the dashboard template and the suggestions template take,
    converted in the order of the template. *)
Definition summary_values (rawQuerySummaries nextStepsInstructions : JsVal)
  : completion (list string) :=
  (joined <~ call_join rawQuerySummaries nl ;;
   instructions <~ ToString nextStepsInstructions ;;
   Normal [joined; instructions])%js.

Definition suggestion_values (queryResults querySummaries nextStepsInstructions : JsVal)
  : completion (list string) :=
  (steps <~ ToString nextStepsInstructions ;;
   context <~ ToString querySummaries ;;
   results <~ ToString queryResults ;;
   summaries <~ ToString querySummaries ;;
   instructions <~ ToString nextStepsInstructions ;;
   Normal [steps; context; results; summaries; instructions])%js.

(** The text of an element of a joined array. *)
Definition joined_text (x : JsVal) : string :=
  if is_nullish x then "" else text_of x.

(** The body of a reply as it is sent. *)
Definition sent_text (resp : response) : string :=
  match payload_of resp with
  | Send text => text
  | Json field value => text_of (JSON_stringify (JObj [(field, value)]))
  end.

(** * Properties *)

(** ** Strings and substrings *)

Lemma append_assoc (a b c : string) : (a ++ b) ++ c = a ++ b ++ c.
Proof.
  induction a as [|x a IH]; simpl; [reflexivity | now rewrite IH].
Qed.

Lemma is_prefix_spec (s t : string) :
  is_prefix s t = true <-> exists post, t = s ++ post.
Proof.
  revert t; induction s as [|a s IH]; intros t; simpl.
  - split; [intros _; now exists t | reflexivity].
  - destruct t as [|b t].
    + split; [discriminate | intros [post H]; discriminate].
    + rewrite andb_true_iff, Ascii.eqb_eq, IH. split.
      * intros [-> [post ->]]. now exists post.
      * intros [post H]. injection H as -> ->. split; [reflexivity | now exists post].
Qed.

Lemma contains_unfold (s t : string) :
  contains s t =
  is_prefix s t || match t with
                   | EmptyString => false
                   | String _ t' => contains s t'
                   end.
Proof. destruct t; reflexivity. Qed.

Lemma contains_spec (s t : string) :
  contains s t = true <-> substring_of s t.
Proof.
  split.
  - induction t as [|c t IH]; rewrite contains_unfold, orb_true_iff.
    + intros [H | H]; [| discriminate].
      apply is_prefix_spec in H as [post ->]. now exists "", post.
    + intros [H | H].
      * apply is_prefix_spec in H as [post ->]. now exists "", post.
      * destruct (IH H) as (pre & post & ->). now exists (String c pre), post.
  - intros (pre & post & ->).
    induction pre as [|c pre IH]; rewrite contains_unfold, orb_true_iff.
    + left. apply is_prefix_spec. now exists post.
    + right. exact IH.
Qed.

Lemma not_contains (s t : string) :
  contains s t = false -> ~ substring_of s t.
Proof.
  intros H Hs. apply contains_spec in Hs. congruence.
Qed.

Lemma substring_of_here (s post : string) : substring_of s (s ++ post).
Proof. now exists "", post. Qed.

Lemma substring_of_skip (s a t : string) :
  substring_of s t -> substring_of s (a ++ t).
Proof.
  intros (pre & post & ->). exists (a ++ pre), post. now rewrite append_assoc.
Qed.

(** A label at the end of one fixed piece, then the interpolated text. *)
Lemma substring_of_label (piece a label v rest : string) :
  piece = a ++ label ->
  substring_of (label ++ v) (piece ++ v ++ rest).
Proof.
  intros ->. exists a, rest. now rewrite !append_assoc.
Qed.

(** The same, closed by the start of the next fixed piece. *)
Lemma substring_of_framed (piece a label v next close b rest : string) :
  piece = a ++ label ->
  next = close ++ b ->
  substring_of (label ++ v ++ close) (piece ++ v ++ next ++ rest).
Proof.
  intros -> ->. exists a, (b ++ rest). now rewrite !append_assoc.
Qed.

(** ** How the handlers run *)

Arguments SDK.queryPrompt : simpl never.
Arguments SDK.summaryPromptText : simpl never.
Arguments SDK.querySuggestionsPromptData : simpl never.
Arguments SDK.candidate_text : simpl never.
Arguments REST.getQuerySummaryPrompt : simpl never.
Arguments REST.finalPromptData : simpl never.
Arguments REST.querySuggestionsPromptData : simpl never.
Arguments REST.candidate_text : simpl never.

Ltac run_monad :=
  cbv [bind lift emit ret throw try_catch trace outcome cbind fst snd]; simpl.

Lemma sdk_handler_run (w : SDK.world) (r : route) (req : request) :
  SDK.handler w r req =
  match SDK.rendered_prompt r req with
  | Throw e => SDK.finish r (SDK.prelog r req) (Throw e)
  | Normal p =>
      SDK.finish r (SDK.prelog r req ++ [GenerateContent p])
        (cbind (SDK.generateContent w p) SDK.candidate_text)
  end.
Proof.
  destruct r; unfold SDK.handler, SDK.rendered_prompt, SDK.prelog;
    [ unfold SDK.handle_generateQuerySummary, SDK.generateQuerySummary
    | unfold SDK.handle_generateSummary, SDK.generateSummary
    | unfold SDK.handle_generateQuerySuggestions, SDK.generateQuerySuggestions ];
    unfold SDK.callModel, SDK.finish; cbv zeta.
  - destruct (SDK.queryPrompt _ _ _) as [p|e]; run_monad; [|reflexivity].
    destruct (SDK.generateContent w p) as [f|e]; run_monad; [|reflexivity].
    destruct (SDK.candidate_text f); reflexivity.
  - destruct (SDK.summaryPromptText _ _) as [p|e]; run_monad; [|reflexivity].
    destruct (SDK.generateContent w p) as [f|e]; run_monad; [|reflexivity].
    destruct (SDK.candidate_text f); reflexivity.
  - destruct (SDK.querySuggestionsPromptData _ _ _) as [p|e]; run_monad; [|reflexivity].
    destruct (SDK.generateContent w p) as [f|e]; run_monad; [|reflexivity].
    destruct (SDK.candidate_text f); reflexivity.
Qed.

Lemma rest_callModel_trace (w : REST.world) (tok : JsVal) (p : string) :
  trace (REST.callModel w tok p) = [Fetch (REST.bearer tok) p].
Proof.
  unfold REST.callModel, REST.bearer.
  destruct (REST.fetch w _ p) as [resp|e]; run_monad; [|reflexivity].
  destruct (REST.resp_ok resp); run_monad.
  - destruct (REST.resp_json resp) as [data|e]; run_monad; [|reflexivity].
    destruct (get data "error") as [err|e]; run_monad; [|reflexivity].
    destruct (ToBoolean err); run_monad.
    + destruct (get err "message"); reflexivity.
    + destruct (REST.candidate_text data); reflexivity.
  - destruct (REST.resp_text resp); reflexivity.
Qed.

Lemma rest_handler_run (w : REST.world) (r : route) (req : request) :
  REST.handler w r req =
  match REST.access_token w with
  | Throw e =>
      REST.finish r
        [AccessTokenRequest;
         ConsoleError [ArgValue (JStr "Error getting access token:"); ArgError e]]
        (Throw e)
  | Normal tok =>
      match REST.rendered_prompt r req with
      | Throw e => REST.finish r [AccessTokenRequest] (Throw e)
      | Normal p =>
          REST.finish r [AccessTokenRequest; Fetch (REST.bearer tok) p]
            (outcome (REST.callModel w tok p))
      end
  end.
Proof.
  destruct r; unfold REST.handler, REST.rendered_prompt;
    [ unfold REST.handle_generateQuerySummary, REST.generateQuerySummary
    | unfold REST.handle_generateSummary, REST.generateSummary
    | unfold REST.handle_generateQuerySuggestions, REST.generateQuerySuggestions ];
    unfold REST.getAccessToken, REST.finish; cbv zeta;
    destruct (REST.access_token w) as [tok|e]; run_monad; try reflexivity.
  - destruct (REST.getQuerySummaryPrompt _ _ _) as [p|e]; run_monad; [|reflexivity].
    pose proof (rest_callModel_trace w tok p) as Ht.
    destruct (REST.callModel w tok p) as [t [v|e]]; simpl in Ht; subst t; reflexivity.
  - destruct (REST.finalPromptData _ _) as [p|e]; run_monad; [|reflexivity].
    pose proof (rest_callModel_trace w tok p) as Ht.
    destruct (REST.callModel w tok p) as [t [v|e]]; simpl in Ht; subst t; reflexivity.
  - destruct (REST.querySuggestionsPromptData _ _ _) as [p|e]; run_monad; [|reflexivity].
    pose proof (rest_callModel_trace w tok p) as Ht.
    destruct (REST.callModel w tok p) as [t [v|e]]; simpl in Ht; subst t; reflexivity.
Qed.

(** ** The gate *)

Lemma sdk_app_run (cfg : config) (w : SDK.world) (r : route) (req : request) :
  SDK.app cfg w r req =
  if passes cfg req
  then (SDK.gate_log cfg req :: trace (SDK.handler w r req),
        outcome (SDK.handler w r req))
  else ([SDK.gate_log cfg req], Normal forbidden).
Proof.
  unfold SDK.app, SDK.post_generateQuerySummary, SDK.post_generateSummary,
    SDK.post_generateQuerySuggestions, SDK.verifyClientSecret, SDK.gate_log, passes.
  destruct r; cbv zeta; destruct (strict_eq _ _); unfold SDK.handler;
    try reflexivity.
  - destruct (SDK.handle_generateQuerySummary w req) as [t c]; reflexivity.
  - destruct (SDK.handle_generateSummary w req) as [t c]; reflexivity.
  - destruct (SDK.handle_generateQuerySuggestions w req) as [t c]; reflexivity.
Qed.

Lemma rest_app_run (cfg : config) (w : REST.world) (r : route) (req : request) :
  REST.app cfg w r req =
  if passes cfg req then REST.handler w r req else ([], Normal forbidden).
Proof.
  unfold REST.app, REST.post_generateQuerySummary, REST.post_generateSummary,
    REST.post_generateQuerySuggestions, REST.verifyClientSecret, passes.
  destruct r; cbv zeta; destruct (strict_eq _ _); reflexivity.
Qed.

Lemma passes_spec (cfg : config) (req : request) :
  passes cfg req = true <->
  match GENAI_CLIENT_SECRET cfg with
  | Some s => lookup "client_secret" (body req) = JStr s
  | None => lookup "client_secret" (body req) = JUndefined
  end.
Proof.
  unfold passes, storedClientSecret, env_value.
  destruct (GENAI_CLIENT_SECRET cfg) as [s|];
    destruct (lookup "client_secret" (body req)); simpl;
    try (split; [discriminate | discriminate]); try tauto.
  rewrite String.eqb_eq. split; [intros -> | intros [= ->]]; reflexivity.
Qed.

(** A handler answers 200 or 500, whatever happens inside it. *)
Lemma sdk_handler_status (w : SDK.world) (r : route) (req : request) :
  exists resp, outcome (SDK.handler w r req) = Normal resp /\
               (status resp = 200 \/ status resp = 500)%Z.
Proof.
  rewrite sdk_handler_run.
  destruct (SDK.rendered_prompt r req) as [p|e].
  - destruct (cbind (SDK.generateContent w p) SDK.candidate_text);
      eexists; (split; [reflexivity |]); simpl; auto.
  - eexists; (split; [reflexivity |]); simpl; auto.
Qed.

Lemma rest_handler_status (w : REST.world) (r : route) (req : request) :
  exists resp, outcome (REST.handler w r req) = Normal resp /\
               (status resp = 200 \/ status resp = 500)%Z.
Proof.
  rewrite rest_handler_run.
  destruct (REST.access_token w) as [tok|e].
  - destruct (REST.rendered_prompt r req) as [p|e].
    + destruct (outcome (REST.callModel w tok p));
        eexists; (split; [reflexivity |]); simpl; auto.
    + eexists; (split; [reflexivity |]); simpl; auto.
  - eexists; (split; [reflexivity |]); simpl; auto.
Qed.

Lemma sdk_model_calls (w : SDK.world) (r : route) (req : request) :
  model_calls (trace (SDK.handler w r req)) =
  match SDK.rendered_prompt r req with
  | Normal p => [GenerateContent p]
  | Throw _ => []
  end.
Proof.
  rewrite sdk_handler_run.
  destruct (SDK.rendered_prompt r req) as [p|e].
  - destruct (cbind (SDK.generateContent w p) SDK.candidate_text);
      destruct r; reflexivity.
  - destruct r; reflexivity.
Qed.

Lemma rest_model_calls (w : REST.world) (r : route) (req : request) :
  model_calls (trace (REST.handler w r req)) =
  match REST.access_token w, REST.rendered_prompt r req with
  | Normal tok, Normal p => [Fetch (REST.bearer tok) p]
  | _, _ => []
  end.
Proof.
  rewrite rest_handler_run.
  destruct (REST.access_token w) as [tok|e]; [| reflexivity].
  destruct (REST.rendered_prompt r req) as [p|e]; [| reflexivity].
  destruct (outcome (REST.callModel w tok p)); reflexivity.
Qed.

(** A request that passes the gate is handled; the answer is the
    handler's, never the 403 of the gate. *)
Lemma passed_gate_runs_handler
    (cfg : config) (ws : SDK.world) (wr : REST.world) (r : route) (req : request) :
  passes cfg req = true ->
  SDK.app cfg ws r req
    = (SDK.gate_log cfg req :: trace (SDK.handler ws r req),
       outcome (SDK.handler ws r req)) /\
  REST.app cfg wr r req = REST.handler wr r req /\
  outcome (SDK.app cfg ws r req) <> Normal forbidden /\
  outcome (REST.app cfg wr r req) <> Normal forbidden.
Proof.
  intros Hp. rewrite sdk_app_run, rest_app_run, Hp.
  destruct (sdk_handler_status ws r req) as (rs & Hs & Hss).
  destruct (rest_handler_status wr r req) as (rr & Hr & Hrs).
  repeat split.
  - simpl. rewrite Hs. intros [= ->]. destruct Hss; discriminate.
  - rewrite Hr. intros [= ->]. destruct Hrs; discriminate.
Qed.

(** C1, as amended.  On each of the three routes of either service the
    gate answers 403 and stops (the SDK service has logged the two secrets,
    nothing else happens: no prompt, no model call) exactly when
    [client_secret] is not strictly equal to the configured secret, that is
    when it is not the configured string, or not undefined while no secret
    is configured.  When they are equal the handler runs and answers 200
    or 500; it calls the model once, with the rendered prompt, whenever
    the prompt is rendered (and, in the REST service, the access token is
    obtained). *)
Theorem gate_rejects_iff_secret_differs
    (cfg : config) (ws : SDK.world) (wr : REST.world) (r : route) (req : request) :
  (passes cfg req = true <->
     match GENAI_CLIENT_SECRET cfg with
     | Some s => lookup "client_secret" (body req) = JStr s
     | None => lookup "client_secret" (body req) = JUndefined
     end) /\
  (outcome (SDK.app cfg ws r req) = Normal forbidden <-> passes cfg req = false) /\
  (outcome (REST.app cfg wr r req) = Normal forbidden <-> passes cfg req = false) /\
  (passes cfg req = false ->
     SDK.app cfg ws r req = ([SDK.gate_log cfg req], Normal forbidden) /\
     REST.app cfg wr r req = ([], Normal forbidden)) /\
  (passes cfg req = true ->
     SDK.app cfg ws r req
       = (SDK.gate_log cfg req :: trace (SDK.handler ws r req),
          outcome (SDK.handler ws r req)) /\
     REST.app cfg wr r req = REST.handler wr r req /\
     (forall p, SDK.rendered_prompt r req = Normal p ->
        model_calls (trace (SDK.app cfg ws r req)) = [GenerateContent p]) /\
     (forall tok p,
        REST.access_token wr = Normal tok ->
        REST.rendered_prompt r req = Normal p ->
        model_calls (trace (REST.app cfg wr r req)) = [Fetch (REST.bearer tok) p])).
Proof.
  split; [apply passes_spec |].
  rewrite sdk_app_run, rest_app_run.
  destruct (passes cfg req) eqn:Hp.
  - destruct (sdk_handler_status ws r req) as (rs & Hs & Hss).
    destruct (rest_handler_status wr r req) as (rr & Hr & Hrs).
    repeat split; try discriminate.
    + simpl. rewrite Hs. intros [= ->]. destruct Hss; discriminate.
    + rewrite Hr. intros [= ->]. destruct Hrs; discriminate.
    + intros p Hprompt. cbn [trace fst model_calls filter is_model_call SDK.gate_log].
      fold (model_calls (trace (SDK.handler ws r req))).
      now rewrite sdk_model_calls, Hprompt.
    + intros tok p Htok Hprompt. now rewrite rest_model_calls, Htok, Hprompt.
  - repeat split; try discriminate; reflexivity.
Qed.

(** C1: a request with the right secret on /generateSummary that carries
    no [querySummaries] passes the gate, and no model call is attempted;
    and with no secret configured a request without [client_secret]
    passes the gate although no string equals another. *)
Lemma gate_passed_without_model_call :
  passes unset_cfg empty_request = true /\
  passes sample_cfg secret_only_request = true /\
  ~ (exists e, In e (model_calls
                       (trace (SDK.app sample_cfg (sdk_world (reply_with_text "ok"))
                                 GenerateSummary secret_only_request)))) /\
  ~ (exists e, In e (model_calls
                       (trace (REST.app sample_cfg
                                 (rest_world 200 "" (Normal (reply_with_text "ok")))
                                 GenerateSummary secret_only_request)))).
Proof.
  split; [reflexivity |]. split; [reflexivity |].
  split; intros [e H]; vm_compute in H; exact H.
Qed.

Lemma gate_rejects_iff_secret_differs_witness :
  SDK.app sample_cfg (sdk_world (reply_with_text "ok")) GenerateSummary
    wrong_secret_request
  = ([SDK.gate_log sample_cfg wrong_secret_request], Normal forbidden) /\
  (exists p,
     model_calls (trace (REST.app sample_cfg
                           (rest_world 200 "" (Normal (reply_with_text "ok")))
                           GenerateSummary full_request))
     = [Fetch (REST.bearer (JStr "ya29.token")) p]).
Proof.
  split.
  - destruct (gate_rejects_iff_secret_differs sample_cfg
                (sdk_world (reply_with_text "ok"))
                (rest_world 200 "" (Normal (reply_with_text "ok")))
                GenerateSummary wrong_secret_request)
      as (_ & _ & _ & Hreject & _).
    apply Hreject. reflexivity.
  - destruct (gate_rejects_iff_secret_differs sample_cfg
                (sdk_world (reply_with_text "ok"))
                (rest_world 200 "" (Normal (reply_with_text "ok")))
                GenerateSummary full_request)
      as (_ & _ & _ & _ & Hpass).
    assert (Hp : passes sample_cfg full_request = true) by reflexivity.
    destruct (Hpass Hp) as (_ & _ & _ & Hcall).
    eexists. apply (Hcall (JStr "ya29.token")); [reflexivity | vm_compute; reflexivity].
Defined.

(** C8.  With no secret configured, a request that carries no
    [client_secret] passes the gate on every route of either service
    (undefined === undefined): the handler runs and the answer is not the
    403 of the gate. *)
Theorem unset_secret_admits_request_without_secret
    (cfg : config) (ws : SDK.world) (wr : REST.world) (r : route) (req : request) :
  GENAI_CLIENT_SECRET cfg = None ->
  lookup "client_secret" (body req) = JUndefined ->
  passes cfg req = true /\
  SDK.app cfg ws r req
    = (SDK.gate_log cfg req :: trace (SDK.handler ws r req),
       outcome (SDK.handler ws r req)) /\
  REST.app cfg wr r req = REST.handler wr r req /\
  outcome (SDK.app cfg ws r req) <> Normal forbidden /\
  outcome (REST.app cfg wr r req) <> Normal forbidden.
Proof.
  intros Hcfg Hsecret.
  assert (Hp : passes cfg req = true).
  { apply passes_spec. now rewrite Hcfg. }
  destruct (passed_gate_runs_handler cfg ws wr r req)
    as (Hs & Hr & Hsn & Hrn); [exact Hp |].
  repeat split; assumption.
Qed.

Lemma unset_secret_admits_request_without_secret_witness :
  passes unset_cfg empty_request = true /\
  outcome (REST.app unset_cfg (rest_world 200 "" (Normal (reply_with_text "ok")))
             GenerateQuerySuggestions empty_request)
  <> Normal forbidden.
Proof.
  destruct (unset_secret_admits_request_without_secret unset_cfg
              (sdk_world (reply_with_text "ok"))
              (rest_world 200 "" (Normal (reply_with_text "ok")))
              GenerateQuerySuggestions empty_request eq_refl eq_refl)
    as (Hp & _ & _ & _ & Hr).
  split; assumption.
Defined.

(** ** Failures inside the handlers *)

Lemma call_join_not_array (v : JsVal) (sep : string) :
  (forall l, v <> JArr l) -> call_join v sep = Throw TypeError.
Proof.
  intros H. destruct v; try reflexivity. now destruct (H elems).
Qed.

(** C9.  An authorized POST /generateSummary whose [querySummaries] is
    missing, or is anything but an array (only an array has [join]), makes
    the handler throw a TypeError before a prompt exists: no model call is
    issued and the endpoint answers 500, in either service. *)
Theorem summary_without_array_answers_500
    (cfg : config) (ws : SDK.world) (wr : REST.world) (req : request) :
  passes cfg req = true ->
  (forall l, lookup "querySummaries" (body req) <> JArr l) ->
  SDK.rendered_prompt GenerateSummary req = Throw TypeError /\
  REST.rendered_prompt GenerateSummary req = Throw TypeError /\
  outcome (SDK.app cfg ws GenerateSummary req) = Normal internal_error /\
  outcome (REST.app cfg wr GenerateSummary req) = Normal internal_error /\
  model_calls (trace (SDK.app cfg ws GenerateSummary req)) = [] /\
  model_calls (trace (REST.app cfg wr GenerateSummary req)) = [].
Proof.
  intros Hp Hq.
  assert (Hs : SDK.rendered_prompt GenerateSummary req = Throw TypeError).
  { unfold SDK.rendered_prompt, SDK.summaryPromptText; cbv zeta.
    now rewrite (call_join_not_array _ nl Hq). }
  assert (Hr : REST.rendered_prompt GenerateSummary req = Throw TypeError).
  { unfold REST.rendered_prompt, REST.finalPromptData; cbv zeta.
    now rewrite (call_join_not_array _ nl Hq). }
  rewrite sdk_app_run, rest_app_run, Hp.
  cbn [trace outcome fst snd model_calls filter is_model_call SDK.gate_log].
  fold (model_calls (trace (SDK.handler ws GenerateSummary req))).
  rewrite sdk_model_calls, rest_model_calls, Hs, Hr.
  rewrite sdk_handler_run, rest_handler_run, Hs, Hr.
  repeat split; try reflexivity.
  - destruct (REST.access_token wr); reflexivity.
  - destruct (REST.access_token wr); reflexivity.
Qed.

Lemma summary_without_array_answers_500_witness :
  outcome (SDK.app sample_cfg (sdk_world (reply_with_text "ok"))
             GenerateSummary secret_only_request) = Normal internal_error /\
  model_calls (trace (REST.app sample_cfg
                        (rest_world 200 "" (Normal (reply_with_text "ok")))
                        GenerateSummary secret_only_request)) = [].
Proof.
  assert (Hq : forall l, lookup "querySummaries" (body secret_only_request) <> JArr l)
    by (intros l; discriminate).
  destruct (summary_without_array_answers_500 sample_cfg
              (sdk_world (reply_with_text "ok"))
              (rest_world 200 "" (Normal (reply_with_text "ok")))
              secret_only_request eq_refl Hq)
    as (_ & _ & Hs & _ & _ & Hr).
  split; assumption.
Defined.

(** ** The model gateway *)

Lemma rest_callModel_not_ok (w : REST.world) (tok : JsVal) (p : string)
    (resp : REST.http_response) (txt : string) :
  REST.fetch w (REST.bearer tok) p = Normal resp ->
  REST.resp_ok resp = false ->
  REST.resp_text resp = Normal txt ->
  outcome (REST.callModel w tok p)
  = Throw (Error ("API request failed with status "
                  ++ REST.status_text (REST.resp_status resp) ++ ": " ++ txt)).
Proof.
  unfold REST.callModel, REST.bearer. intros -> Hok Htxt.
  run_monad. rewrite Hok, Htxt. reflexivity.
Qed.

Lemma rest_callModel_text_fails (w : REST.world) (tok : JsVal) (p : string)
    (resp : REST.http_response) (e : exn) :
  REST.fetch w (REST.bearer tok) p = Normal resp ->
  REST.resp_ok resp = false ->
  REST.resp_text resp = Throw e ->
  outcome (REST.callModel w tok p) = Throw e.
Proof.
  unfold REST.callModel, REST.bearer. intros -> Hok Htxt.
  run_monad. rewrite Hok, Htxt. reflexivity.
Qed.

Lemma rest_callModel_ok (w : REST.world) (tok : JsVal) (p : string)
    (resp : REST.http_response) (data err : JsVal) :
  REST.fetch w (REST.bearer tok) p = Normal resp ->
  REST.resp_ok resp = true ->
  REST.resp_json resp = Normal data ->
  get data "error" = Normal err ->
  ToBoolean err = false ->
  outcome (REST.callModel w tok p) = REST.candidate_text data.
Proof.
  unfold REST.callModel, REST.bearer. intros -> Hok Hjson Herr Hfalsy.
  run_monad. rewrite Hok, Hjson. run_monad. rewrite Herr. run_monad.
  rewrite Hfalsy. now destruct (REST.candidate_text data).
Qed.

Lemma rest_candidate_text_empty (data : JsVal) :
  get data "candidates" = Normal (JArr []) ->
  REST.candidate_text data = Normal (JStr "").
Proof.
  unfold REST.candidate_text. now intros ->.
Qed.

Lemma sdk_candidate_text_empty (formattedResp response : JsVal) :
  get formattedResp "response" = Normal response ->
  get response "candidates" = Normal (JArr []) ->
  SDK.candidate_text formattedResp = Throw TypeError.
Proof.
  unfold SDK.candidate_text. intros -> Hc. cbv [cbind]. now rewrite Hc.
Qed.

(** C3, as amended.  For an authorized request on any of the three routes
    whose model call goes through: when the decoded reply has an empty
    [candidates] array (and no error field), the REST service answers 200
    with the result field equal to the empty string; the SDK service, which
    reads the same path without a default, throws and answers 500. *)
Theorem empty_candidates_rest_200_sdk_500
    (cfg : config) (r : route) (req : request) :
  passes cfg req = true ->
  (forall (wr : REST.world) (tok : JsVal) (p : string)
          (resp : REST.http_response) (data err : JsVal),
     REST.access_token wr = Normal tok ->
     REST.rendered_prompt r req = Normal p ->
     REST.fetch wr (REST.bearer tok) p = Normal resp ->
     REST.resp_ok resp = true ->
     REST.resp_json resp = Normal data ->
     get data "error" = Normal err ->
     ToBoolean err = false ->
     get data "candidates" = Normal (JArr []) ->
     outcome (REST.app cfg wr r req)
     = Normal {| status := 200; payload_of := Json (result_field r) (JStr "") |}) /\
  (forall (ws : SDK.world) (p : string) (formattedResp response : JsVal),
     SDK.rendered_prompt r req = Normal p ->
     SDK.generateContent ws p = Normal formattedResp ->
     get formattedResp "response" = Normal response ->
     get response "candidates" = Normal (JArr []) ->
     outcome (SDK.app cfg ws r req) = Normal internal_error).
Proof.
  intros Hp. split.
  - intros wr tok p resp data err Htok Hprompt Hfetch Hok Hjson Herr Hfalsy Hcand.
    rewrite rest_app_run, Hp, rest_handler_run, Htok, Hprompt.
    rewrite (rest_callModel_ok wr tok p resp data err Hfetch Hok Hjson Herr Hfalsy).
    now rewrite (rest_candidate_text_empty data Hcand).
  - intros ws p formattedResp response Hprompt Hcall Hresp Hcand.
    rewrite sdk_app_run, Hp. cbn [outcome snd].
    rewrite sdk_handler_run, Hprompt, Hcall. cbv [cbind].
    now rewrite (sdk_candidate_text_empty formattedResp response Hresp Hcand).
Qed.

(** C3: in the SDK service an authorized request whose model reply has
    no candidates is answered 500, not 200 with an empty summary. *)
Lemma sdk_no_candidates_is_500 :
  passes sample_cfg full_request = true /\
  get reply_without_candidates "candidates" = Normal (JArr []) /\
  outcome (SDK.app sample_cfg (sdk_world reply_without_candidates)
             GenerateQuerySummary full_request)
  = Normal {| status := 500; payload_of := Send "Internal Server Error" |} /\
  outcome (SDK.app sample_cfg (sdk_world reply_without_candidates)
             GenerateQuerySummary full_request)
  <> Normal {| status := 200; payload_of := Json "summary" (JStr "") |}.
Proof.
  repeat split; try (vm_compute; reflexivity).
  vm_compute. discriminate.
Qed.

Lemma empty_candidates_rest_200_sdk_500_witness :
  outcome (REST.app sample_cfg (rest_world 200 "" (Normal reply_without_candidates))
             GenerateQuerySuggestions full_request)
  = Normal {| status := 200; payload_of := Json "suggestions" (JStr "") |} /\
  outcome (SDK.app sample_cfg (sdk_world reply_without_candidates)
             GenerateQuerySuggestions full_request)
  = Normal internal_error.
Proof.
  destruct (empty_candidates_rest_200_sdk_500 sample_cfg GenerateQuerySuggestions
              full_request eq_refl) as (Hrest & Hsdk).
  split.
  - refine (Hrest (rest_world 200 "" (Normal reply_without_candidates))
                  (JStr "ya29.token") _
                  {| REST.resp_status := 200;
                     REST.resp_text := Normal "";
                     REST.resp_json := Normal reply_without_candidates |}
                  reply_without_candidates JUndefined _ _ _ _ _ _ _ _);
      first [vm_compute; reflexivity | reflexivity].
  - refine (Hsdk (sdk_world reply_without_candidates) _
                 (JObj [("response", reply_without_candidates)])
                 reply_without_candidates _ _ _ _);
      first [vm_compute; reflexivity | reflexivity].
Defined.

(** C5.  When the model endpoint answers an authorized request with a
    status that is not a success, the REST service answers exactly 500
    with the fixed text "Internal Server Error", whatever the upstream
    status and body text are; those two appear in the message of the error
    written to the server log, and nowhere in the reply.  The SDK service,
    whose client reports a failed call by rejecting, answers the same
    fixed 500 and logs the rejection. *)
Theorem upstream_failure_answers_fixed_500
    (cfg : config) (r : route) (req : request) :
  passes cfg req = true ->
  (forall (wr : REST.world) (tok : JsVal) (p : string) (resp : REST.http_response),
     REST.access_token wr = Normal tok ->
     REST.rendered_prompt r req = Normal p ->
     REST.fetch wr (REST.bearer tok) p = Normal resp ->
     (REST.resp_status resp < 200 \/ 299 < REST.resp_status resp)%Z ->
     REST.app cfg wr r req =
     ([AccessTokenRequest;
       Fetch (REST.bearer tok) p;
       ConsoleError
         [ArgValue (JStr (REST.error_label r));
          ArgError
            match REST.resp_text resp with
            | Normal errorText =>
                Error ("API request failed with status "
                       ++ REST.status_text (REST.resp_status resp)
                       ++ ": " ++ errorText)
            | Throw e => e
            end]],
      Normal {| status := 500; payload_of := Send "Internal Server Error" |})) /\
  (forall (ws : SDK.world) (p : string) (e : exn),
     SDK.rendered_prompt r req = Normal p ->
     SDK.generateContent ws p = Throw e ->
     SDK.app cfg ws r req =
     (SDK.gate_log cfg req
        :: SDK.prelog r req
        ++ [GenerateContent p;
            ConsoleLog [ArgValue (JStr (SDK.error_label r)); ArgError e]],
      Normal {| status := 500; payload_of := Send "Internal Server Error" |})).
Proof.
  intros Hp. split.
  - intros wr tok p resp Htok Hprompt Hfetch Hstatus.
    assert (Hok : REST.resp_ok resp = false).
    { unfold REST.resp_ok. apply andb_false_iff.
      destruct Hstatus; [left | right]; apply Z.leb_gt; assumption. }
    rewrite rest_app_run, Hp, rest_handler_run, Htok, Hprompt.
    destruct (REST.resp_text resp) as [txt|e] eqn:Htxt.
    + now rewrite (rest_callModel_not_ok wr tok p resp txt Hfetch Hok Htxt).
    + now rewrite (rest_callModel_text_fails wr tok p resp e Hfetch Hok Htxt).
  - intros ws p e Hprompt Hcall.
    rewrite sdk_app_run, Hp, sdk_handler_run, Hprompt, Hcall.
    cbv [cbind SDK.finish trace outcome fst snd].
    now rewrite <- app_assoc.
Qed.

Lemma upstream_failure_answers_fixed_500_witness :
  exists p,
    REST.app sample_cfg (rest_world 503 "model overloaded" (Throw SyntaxError))
      GenerateSummary full_request =
    ([AccessTokenRequest;
      Fetch "Bearer ya29.token" p;
      ConsoleError
        [ArgValue (JStr "Error in /generateSummary:");
         ArgError (Error "API request failed with status 503: model overloaded")]],
     Normal {| status := 500; payload_of := Send "Internal Server Error" |}).
Proof.
  eexists.
  apply (proj1 (upstream_failure_answers_fixed_500 sample_cfg
                  GenerateSummary full_request eq_refl)
           (rest_world 503 "model overloaded" (Throw SyntaxError))
           (JStr "ya29.token") _
           {| REST.resp_status := 503;
              REST.resp_text := Normal "model overloaded";
              REST.resp_json := Throw SyntaxError |});
    first [reflexivity | right; reflexivity].
Defined.

(** ** Conversion to a string *)

(** Induction on a value and on the elements of an array. *)
Section JsVal_elements.
Variable P : JsVal -> Prop.
Hypothesis Hundefined : P JUndefined.
Hypothesis Hnull : P JNull.
Hypothesis Hbool : forall b, P (JBool b).
Hypothesis Hnum : forall n, P (JNum n).
Hypothesis Hstr : forall s, P (JStr s).
Hypothesis Harr : forall l, Forall P l -> P (JArr l).
Hypothesis Hobj : forall ps, P (JObj ps).

Lemma JsVal_elements_ind (v : JsVal) : P v.
Proof.
  revert v. fix IH 1. intros [| | b | n | s | l | ps].
  - exact Hundefined.
  - exact Hnull.
  - apply Hbool.
  - apply Hnum.
  - apply Hstr.
  - apply Harr. induction l as [|x r IHr]; constructor; [apply IH | exact IHr].
  - apply Hobj.
Qed.
End JsVal_elements.

Lemma ToString_array (l : list JsVal) : ToString (JArr l) = Array_join "," l.
Proof.
  unfold Array_join. cbn [ToString]. cbv [cbind].
  assert (E : forall l,
    (fix texts (l : list JsVal) : completion (list string) :=
       match l with
       | [] => Normal []
       | x :: r =>
           match
             match x with
             | JUndefined | JNull => Normal ""
             | _ => ToString x
             end
           with
           | Normal t =>
               match texts r with
               | Normal ts => Normal (t :: ts)
               | Throw e => Throw e
               end
           | Throw e => Throw e
           end
       end) l = traverse element_text l).
  { clear l. induction l as [|x r IH]; [reflexivity |].
    cbn [traverse]. cbv [cbind]. rewrite IH.
    now destruct x. }
  now rewrite E.
Qed.

(** A conversion gives the text of the value or throws a TypeError, and
    so does a join, for every separator. *)
Lemma traverse_element_text (l : list JsVal) :
  Forall (fun v => match ToString v with
                   | Normal t => t = text_of v
                   | Throw e => e = TypeError
                   end) l ->
  match traverse element_text l with
  | Normal ts => ts = map joined_text l
  | Throw e => e = TypeError
  end.
Proof.
  induction 1 as [|x r Hx _ IH]; [reflexivity |].
  cbn [traverse map]. cbv [cbind].
  unfold element_text at 1, joined_text at 1.
  destruct (is_nullish x).
  - destruct (traverse element_text r); [now subst | assumption].
  - destruct (ToString x); [| assumption].
    destruct (traverse element_text r); [now subst | assumption].
Qed.

Lemma text_of_array (l : list JsVal) :
  text_of (JArr l) = String.concat "," (map joined_text l).
Proof.
  cbn [text_of]. f_equal. apply map_ext. intros x. now destruct x.
Qed.

Lemma ToString_cases (v : JsVal) :
  match ToString v with
  | Normal t => t = text_of v
  | Throw e => e = TypeError
  end.
Proof.
  induction v as [ | | b | n | s | l IH | ps] using JsVal_elements_ind;
    try reflexivity.
  - rewrite ToString_array, text_of_array. unfold Array_join. cbv [cbind].
    pose proof (traverse_element_text l IH) as H.
    destruct (traverse element_text l); [now subst | assumption].
  - cbn [ToString]. now destruct (has_own "toString" ps).
Qed.

Lemma converts_text (v : JsVal) :
  converts v = true -> ToString v = Normal (text_of v).
Proof.
  unfold converts. pose proof (ToString_cases v) as H.
  destruct (ToString v); [now subst | discriminate].
Qed.

Lemma ToString_throws (v : JsVal) (e : exn) :
  ToString v = Throw e -> e = TypeError.
Proof.
  intros H. pose proof (ToString_cases v) as C. now rewrite H in C.
Qed.

Lemma not_converts (v : JsVal) :
  converts v = false -> ToString v = Throw TypeError.
Proof.
  unfold converts. destruct (ToString v) eqn:H; [discriminate |].
  intros _. now rewrite (ToString_throws v e H).
Qed.

Lemma Array_join_cases (sep : string) (l : list JsVal) :
  match Array_join sep l with
  | Normal t => t = String.concat sep (map joined_text l)
  | Throw e => e = TypeError
  end.
Proof.
  unfold Array_join. cbv [cbind].
  pose proof (traverse_element_text l) as H.
  destruct (traverse element_text l).
  - f_equal. apply H. apply Forall_forall. intros v _. apply ToString_cases.
  - apply H. apply Forall_forall. intros v _. apply ToString_cases.
Qed.

(** Whether a join succeeds does not depend on the separator: it succeeds
    exactly when the array converts. *)
Lemma Array_join_converts (sep : string) (l : list JsVal) :
  converts (JArr l) = true ->
  Array_join sep l = Normal (String.concat sep (map joined_text l)).
Proof.
  unfold converts. rewrite ToString_array.
  pose proof (Array_join_cases sep l) as H. revert H.
  unfold Array_join. cbv [cbind].
  destruct (traverse element_text l); [now intros -> | discriminate].
Qed.

Lemma Array_join_not_converts (sep : string) (l : list JsVal) :
  converts (JArr l) = false -> Array_join sep l = Throw TypeError.
Proof.
  unfold converts. rewrite ToString_array.
  pose proof (Array_join_cases sep l) as H. revert H.
  unfold Array_join. cbv [cbind].
  destruct (traverse element_text l); [discriminate | now intros ->].
Qed.

Lemma converts_strings (l : list string) : converts (JArr (map JStr l)) = true.
Proof.
  unfold converts. rewrite ToString_array. unfold Array_join. cbv [cbind].
  assert (E : traverse element_text (map JStr l) = Normal l).
  { induction l as [|s r IH]; [reflexivity |].
    cbn [map traverse]. cbv [cbind]. now rewrite IH. }
  now rewrite E.
Qed.

Lemma joined_text_strings (l : list string) : map joined_text (map JStr l) = l.
Proof. rewrite map_map. apply map_id. Qed.

Lemma converts_or_else (v : JsVal) :
  converts v = true -> converts (or_else v (JStr "")) = true.
Proof. unfold or_else. now destruct (ToBoolean v). Qed.

Lemma converts_stringified (v : JsVal) : converts (JSON_stringify v) = true.
Proof. unfold JSON_stringify. now destruct (SerializeJSON v). Qed.

Lemma converts_object (ps : list (string * JsVal)) :
  converts (JObj ps) = negb (has_own "toString" ps).
Proof. unfold converts. cbn [ToString]. now destruct (has_own "toString" ps). Qed.

(** ** The prompts *)



(** *** The query-summary template *)

Ltac step_cbind :=
  match goal with
  | |- context [cbind ?c _] =>
      lazymatch c with
      | cbind _ _ => fail
      | _ => destruct c; cbn [cbind]; try reflexivity
      end
  end.

(** The query-summary prompt of either service: its fixed pieces filled
    with the values of the request, when all of them can be read and
    converted. *)
Lemma sdk_queryPrompt_values (query description nsi : JsVal) :
  SDK.queryPrompt query description nsi =
  cbind (query_values SDK.note_segment query description nsi)
        (fun values => Normal (fill SDK.query_pieces values)).
Proof.
  unfold SDK.queryPrompt, SDK.context, query_values.
  repeat step_cbind.
  cbv [fill SDK.query_pieces]. now rewrite !append_assoc.
Qed.

Lemma rest_queryPrompt_values (query description nsi : JsVal) :
  REST.getQuerySummaryPrompt query description nsi =
  cbind (query_values REST.note_segment query description nsi)
        (fun values => Normal (fill REST.query_pieces values)).
Proof.
  unfold REST.getQuerySummaryPrompt, query_values.
  repeat step_cbind.
Qed.

Lemma sdk_note_segment_always (note : JsVal) :
  SDK.note_segment note
  = cbind (ToString note) (fun text => Normal ("Query Note: " ++ text)).
Proof.
  unfold SDK.note_segment. now destruct note as [| | | | [|c s] | |].
Qed.

(** The note of the REST service is left out exactly for the empty string
    and for null. *)
Lemma rest_note_segment_spec (note : JsVal) :
  REST.note_segment note =
  if strict_eq note (CString "") || strict_eq note CNull
  then Normal ""
  else cbind (ToString note) (fun text => Normal ("Query Note: " ++ text)).
Proof.
  unfold REST.note_segment, strict_neq.
  now destruct (strict_eq note (CString "")), (strict_eq note CNull).
Qed.

Lemma sdk_note_segment_text (note : JsVal) :
  converts note = true ->
  SDK.note_segment note = Normal ("Query Note: " ++ text_of note).
Proof.
  intros H. now rewrite sdk_note_segment_always, (converts_text note H).
Qed.

Lemma rest_note_segment_text (note : JsVal) :
  converts note = true ->
  REST.note_segment note =
  Normal (if strict_eq note (CString "") || strict_eq note CNull
          then "" else "Query Note: " ++ text_of note).
Proof.
  intros H. rewrite rest_note_segment_spec, (converts_text note H).
  now destruct (strict_eq note (CString "") || strict_eq note CNull).
Qed.

Lemma note_segments_throw_together (note : JsVal) :
  (exists t, SDK.note_segment note = Normal t) <->
  (exists t, REST.note_segment note = Normal t).
Proof.
  rewrite sdk_note_segment_always, rest_note_segment_spec.
  destruct note as [| | b | n | s | l | ps]; cbn [ToString cbind];
    try (split; intros _; eexists; reflexivity);
    destruct (strict_eq _ (CString "") || strict_eq _ CNull) eqn:E;
    try (split; intros _; eexists; reflexivity);
    try discriminate; tauto.
Qed.

Lemma get_renderable (query : JsVal) :
  renderable query = true ->
  (forall k, get query k = Normal (prop query k)) /\
  (forall k, get (prop query "queryBody") k = Normal (prop (prop query "queryBody") k)).
Proof.
  unfold renderable, get. intros H.
  apply andb_true_iff in H as [Hq Hb].
  apply negb_true_iff in Hq, Hb. now rewrite Hq, Hb.
Qed.

(** The values of a readable query. *)
Lemma query_values_readable (note_of : JsVal -> completion string)
    (query description nsi : JsVal) :
  readable query = true ->
  converts description = true ->
  converts nsi = true ->
  query_values note_of query description nsi =
  cbind (note_of (prop query "note_text"))
    (fun note =>
       Normal [text_of (or_else nsi (JStr ""));
               text_of (or_else description (JStr ""));
               text_of (prop query "title");
               note;
               text_of (prop (prop query "queryBody") "fields");
               text_of (JSON_stringify (prop query "queryData"))]).
Proof.
  unfold readable. intros H Hd Hn.
  apply andb_true_iff in H as [H Hf]. apply andb_true_iff in H as [H _].
  apply andb_true_iff in H as [Hr Ht].
  destruct (get_renderable query Hr) as [Hq Hb].
  unfold query_values.
  rewrite (converts_text _ (converts_or_else nsi Hn)),
    (converts_text _ (converts_or_else description Hd)).
  cbn [cbind]. rewrite !Hq. cbn [cbind]. rewrite (converts_text _ Ht). cbn [cbind].
  destruct (note_of (prop query "note_text")); cbn [cbind]; [| reflexivity].
  rewrite Hb. cbn [cbind]. rewrite (converts_text _ Hf). cbn [cbind].
  now rewrite (converts_text _ (converts_stringified _)).
Qed.

(** Whatever fails while the values are read or converted is a TypeError. *)
Lemma query_values_throws (note_of : JsVal -> completion string)
    (query description nsi : JsVal) (e : exn) :
  (forall note e', note_of note = Throw e' -> e' = TypeError) ->
  query_values note_of query description nsi = Throw e ->
  e = TypeError.
Proof.
  intros Hnote. unfold query_values.
  repeat match goal with
  | |- context [cbind ?c _] =>
      lazymatch c with
      | cbind _ _ => fail
      | _ =>
          let E := fresh "E" in
          destruct c eqn:E; cbn [cbind];
          [| intros [= <-];
             first [ exact (ToString_throws _ _ E)
                   | exact (Hnote _ _ E)
                   | unfold get in E; destruct (is_nullish _); congruence ] ]
      end
  end.
  discriminate.
Qed.

Lemma sdk_note_segment_throws (note : JsVal) (e : exn) :
  SDK.note_segment note = Throw e -> e = TypeError.
Proof.
  rewrite sdk_note_segment_always. destruct (ToString note) eqn:E; [discriminate |].
  intros [= <-]. exact (ToString_throws _ _ E).
Qed.

Lemma rest_note_segment_throws (note : JsVal) (e : exn) :
  REST.note_segment note = Throw e -> e = TypeError.
Proof.
  rewrite rest_note_segment_spec.
  destruct (strict_eq note (CString "") || strict_eq note CNull); [discriminate |].
  destruct (ToString note) eqn:E; [discriminate |].
  intros [= <-]. exact (ToString_throws _ _ E).
Qed.

Lemma query_values_not_renderable (note_of : JsVal -> completion string)
    (query description nsi : JsVal) :
  renderable query = false ->
  exists e, query_values note_of query description nsi = Throw e.
Proof.
  unfold renderable, query_values, get. intros H.
  repeat match goal with
  | |- context [cbind ?c _] =>
      lazymatch c with
      | cbind _ _ => fail
      | (if is_nullish query then _ else _) =>
          destruct (is_nullish query) eqn:Hq; cbn [cbind];
          [eexists; reflexivity |]
      | (if is_nullish (prop query "queryBody") then _ else _) =>
          destruct (is_nullish (prop query "queryBody")) eqn:Hb; cbn [cbind];
          [eexists; reflexivity |]
      | _ => destruct c; cbn [cbind]; [| eexists; reflexivity]
      end
  end.
  first [discriminate | rewrite Hq, Hb in H; discriminate].
Qed.

Lemma sdk_queryPrompt_not_renderable (query description nsi : JsVal) :
  renderable query = false ->
  SDK.queryPrompt query description nsi = Throw TypeError.
Proof.
  intros H. rewrite sdk_queryPrompt_values.
  destruct (query_values_not_renderable SDK.note_segment query description nsi H)
    as [e He].
  rewrite He. cbn [cbind]. f_equal.
  exact (query_values_throws _ _ _ _ _ sdk_note_segment_throws He).
Qed.

Lemma rest_queryPrompt_not_renderable (query description nsi : JsVal) :
  renderable query = false ->
  REST.getQuerySummaryPrompt query description nsi = Throw TypeError.
Proof.
  intros H. rewrite rest_queryPrompt_values.
  destruct (query_values_not_renderable REST.note_segment query description nsi H)
    as [e He].
  rewrite He. cbn [cbind]. f_equal.
  exact (query_values_throws _ _ _ _ _ rest_note_segment_throws He).
Qed.

Lemma readable_note (query : JsVal) :
  readable query = true -> converts (prop query "note_text") = true.
Proof.
  unfold readable. intros H.
  apply andb_true_iff in H as [H _]. now apply andb_true_iff in H as [_ H].
Qed.

(** The prompts of a readable query, as texts. *)
Lemma sdk_queryPrompt_readable (query description nsi : JsVal) :
  readable query = true ->
  converts description = true ->
  converts nsi = true ->
  SDK.queryPrompt query description nsi =
  Normal (fill SDK.query_pieces
            [text_of (or_else nsi (JStr ""));
             text_of (or_else description (JStr ""));
             text_of (prop query "title");
             "Query Note: " ++ text_of (prop query "note_text");
             text_of (prop (prop query "queryBody") "fields");
             text_of (JSON_stringify (prop query "queryData"))]).
Proof.
  intros Hr Hd Hn.
  rewrite sdk_queryPrompt_values, (query_values_readable _ _ _ _ Hr Hd Hn).
  now rewrite (sdk_note_segment_text _ (readable_note _ Hr)).
Qed.

Lemma rest_queryPrompt_readable (query description nsi : JsVal) :
  readable query = true ->
  converts description = true ->
  converts nsi = true ->
  REST.getQuerySummaryPrompt query description nsi =
  Normal (fill REST.query_pieces
            [text_of (or_else nsi (JStr ""));
             text_of (or_else description (JStr ""));
             text_of (prop query "title");
             (if strict_eq (prop query "note_text") (CString "")
                 || strict_eq (prop query "note_text") CNull
              then "" else "Query Note: " ++ text_of (prop query "note_text"));
             text_of (prop (prop query "queryBody") "fields");
             text_of (JSON_stringify (prop query "queryData"))]).
Proof.
  intros Hr Hd Hn.
  rewrite rest_queryPrompt_values, (query_values_readable _ _ _ _ Hr Hd Hn).
  now rewrite (rest_note_segment_text _ (readable_note _ Hr)).
Qed.

Lemma converts_or_else_inv (v : JsVal) :
  converts (or_else v (JStr "")) = true -> converts v = true.
Proof.
  unfold or_else. destruct (ToBoolean v) eqn:E; [trivial |].
  intros _. destruct v; try reflexivity; discriminate.
Qed.

Lemma ToString_converts (v : JsVal) (t : string) :
  ToString v = Normal t -> converts v = true.
Proof. unfold converts. now intros ->. Qed.

Lemma get_normal (v x : JsVal) (k : string) :
  get v k = Normal x -> is_nullish v = false /\ x = prop v k.
Proof.
  unfold get. destruct (is_nullish v); [discriminate |].
  intros [= <-]. split; reflexivity.
Qed.

Lemma query_values_rendered (note_of : JsVal -> completion string)
    (query description nsi : JsVal) (values : list string) :
  (forall note t, note_of note = Normal t -> converts note = true) ->
  query_values note_of query description nsi = Normal values ->
  readable query = true /\ converts description = true /\ converts nsi = true.
Proof.
  intros Hnote. unfold query_values.
  destruct (ToString (or_else nsi (JStr ""))) eqn:En; cbn [cbind]; [| discriminate].
  destruct (ToString (or_else description (JStr ""))) eqn:Ed; cbn [cbind];
    [| discriminate].
  destruct (get query "title") as [title|] eqn:Gt; cbn [cbind]; [| discriminate].
  destruct (ToString title) eqn:Et; cbn [cbind]; [| discriminate].
  destruct (get query "note_text") as [note|] eqn:Gn; cbn [cbind]; [| discriminate].
  destruct (note_of note) eqn:Eo; cbn [cbind]; [| discriminate].
  destruct (get query "queryBody") as [queryBody|] eqn:Gb; cbn [cbind];
    [| discriminate].
  destruct (get queryBody "fields") as [fields|] eqn:Gf; cbn [cbind];
    [| discriminate].
  destruct (ToString fields) eqn:Ef; cbn [cbind]; [| discriminate].
  intros _.
  apply get_normal in Gt as [Hq ->]. apply get_normal in Gn as [_ ->].
  apply get_normal in Gb as [_ ->]. apply get_normal in Gf as [Hb ->].
  apply ToString_converts in En, Ed, Et, Ef. apply Hnote in Eo.
  unfold readable, renderable. rewrite Hq, Hb, Et, Eo, Ef.
  repeat split.
  - now apply converts_or_else_inv.
  - now apply converts_or_else_inv.
Qed.

Lemma sdk_note_segment_rendered (note : JsVal) (t : string) :
  SDK.note_segment note = Normal t -> converts note = true.
Proof.
  rewrite sdk_note_segment_always. unfold converts.
  destruct (ToString note); [reflexivity | discriminate].
Qed.

Lemma rest_note_segment_rendered (note : JsVal) (t : string) :
  REST.note_segment note = Normal t -> converts note = true.
Proof.
  rewrite rest_note_segment_spec. unfold converts.
  destruct note as [| | b | n | s | l | ps]; try reflexivity;
    destruct (strict_eq _ (CString "") || strict_eq _ CNull) eqn:E;
    try discriminate; destruct (ToString _); try reflexivity; discriminate.
Qed.

(** The query-summary prompt of either service is rendered exactly for a
    readable query with a description and instructions that convert. *)
Lemma queryPrompt_rendered_iff (query description nsi : JsVal) :
  ((exists p, SDK.queryPrompt query description nsi = Normal p) <->
   readable query = true /\ converts description = true /\ converts nsi = true) /\
  ((exists p, REST.getQuerySummaryPrompt query description nsi = Normal p) <->
   readable query = true /\ converts description = true /\ converts nsi = true).
Proof.
  split; split.
  - intros [p H]. rewrite sdk_queryPrompt_values in H.
    destruct (query_values SDK.note_segment query description nsi) eqn:E;
      [| discriminate].
    exact (query_values_rendered _ _ _ _ _ sdk_note_segment_rendered E).
  - intros (Hr & Hd & Hn). eexists. exact (sdk_queryPrompt_readable _ _ _ Hr Hd Hn).
  - intros [p H]. rewrite rest_queryPrompt_values in H.
    destruct (query_values REST.note_segment query description nsi) eqn:E;
      [| discriminate].
    exact (query_values_rendered _ _ _ _ _ rest_note_segment_rendered E).
  - intros (Hr & Hd & Hn). eexists. exact (rest_queryPrompt_readable _ _ _ Hr Hd Hn).
Qed.


Lemma substring_of_framed_end (piece a label v next close b : string) :
  piece = a ++ label ->
  next = close ++ b ->
  substring_of (label ++ v ++ close) (piece ++ v ++ next).
Proof.
  intros -> ->. exists a, b. now rewrite !append_assoc.
Qed.



Lemma same_text_refl (a : completion string) : same_text a a = true.
Proof. destruct a; simpl; [apply String.eqb_refl | reflexivity]. Qed.

Lemma same_text_false (a b : completion string) :
  same_text a b = false -> a <> b.
Proof.
  intros H ->. rewrite same_text_refl in H. discriminate.
Qed.

(** The suggestions prompt of either service, for values that convert. *)
Lemma sdk_suggestions_text (queryResults querySummaries nsi : JsVal) :
  converts queryResults = true ->
  converts querySummaries = true ->
  converts nsi = true ->
  SDK.querySuggestionsPromptData queryResults querySummaries nsi =
  Normal (fill SDK.suggestion_pieces
            [text_of nsi; text_of querySummaries; text_of queryResults;
             text_of querySummaries; text_of nsi]).
Proof.
  intros Hr Hs Hn. unfold SDK.querySuggestionsPromptData.
  now rewrite (converts_text _ Hr), (converts_text _ Hs), (converts_text _ Hn).
Qed.

Lemma rest_suggestions_text (queryResults querySummaries nsi : JsVal) :
  converts queryResults = true ->
  converts querySummaries = true ->
  converts nsi = true ->
  REST.querySuggestionsPromptData queryResults querySummaries nsi =
  Normal (fill REST.suggestion_pieces
            [text_of nsi; text_of querySummaries; text_of queryResults;
             text_of querySummaries; text_of nsi]).
Proof.
  intros Hr Hs Hn. unfold REST.querySuggestionsPromptData.
  now rewrite (converts_text _ Hr), (converts_text _ Hs), (converts_text _ Hn).
Qed.

(** Where each value of the suggestions template stands. *)
Lemma suggestions_current_data (p0 p1 p2 p3 p4 p5 : string)
    (a b v0 v1 v2 v3 v4 : string) :
  p2 = a ++ "* **Current Data:** `" ->
  p3 = "`" ++ b ->
  substring_of ("* **Current Data:** `" ++ v2 ++ "`")
    (fill [p0; p1; p2; p3; p4; p5] [v0; v1; v2; v3; v4]).
Proof.
  intros E2 E3. cbv [fill]. do 4 apply substring_of_skip.
  exact (substring_of_framed p2 a _ v2 p3 "`" b _ E2 E3).
Qed.

Lemma suggestions_previous_analysis (p0 p1 p2 p3 p4 p5 : string)
    (a b v0 v1 v2 v3 v4 : string) :
  p3 = a ++ "* **Previous Analysis and Next Steps:** `" ->
  p4 = "`" ++ b ->
  substring_of ("* **Previous Analysis and Next Steps:** `" ++ v3 ++ "`")
    (fill [p0; p1; p2; p3; p4; p5] [v0; v1; v2; v3; v4]).
Proof.
  intros E3 E4. cbv [fill]. do 6 apply substring_of_skip.
  exact (substring_of_framed p3 a _ v3 p4 "`" b _ E3 E4).
Qed.

Lemma suggestions_instructions (p0 p1 p2 p3 p4 p5 : string)
    (a b v0 v1 v2 v3 v4 : string) :
  p4 = a ++ "* **Next Step Instructions:** `" ->
  p5 = "`" ++ b ->
  substring_of ("* **Next Step Instructions:** `" ++ v4 ++ "`")
    (fill [p0; p1; p2; p3; p4; p5] [v0; v1; v2; v3; v4]).
Proof.
  intros E4 E5. cbv [fill]. do 8 apply substring_of_skip.
  exact (substring_of_framed_end p4 a _ v4 p5 "`" b E4 E5).
Qed.

Ltac sdk_suggestion_piece lemma :=
  unfold SDK.suggestion_pieces;
  first
    [ exact (lemma _ _ _ _ _ _
               (but_last 21 SDK.querySuggestionsPromptData_text_2)
               (after 1 SDK.querySuggestionsPromptData_text_3)
               _ _ _ _ _ eq_refl eq_refl)
    | exact (lemma _ _ _ _ _ _
               (but_last 41 SDK.querySuggestionsPromptData_text_3)
               (after 1 SDK.querySuggestionsPromptData_text_4)
               _ _ _ _ _ eq_refl eq_refl)
    | exact (lemma _ _ _ _ _ _
               (but_last 31 SDK.querySuggestionsPromptData_text_4)
               (after 1 SDK.querySuggestionsPromptData_text_5)
               _ _ _ _ _ eq_refl eq_refl) ].

Ltac rest_suggestion_piece lemma :=
  unfold REST.suggestion_pieces;
  first
    [ exact (lemma _ _ _ _ _ _
               (but_last 21 REST.querySuggestionsPromptData_text_2)
               (after 1 REST.querySuggestionsPromptData_text_3)
               _ _ _ _ _ eq_refl eq_refl)
    | exact (lemma _ _ _ _ _ _
               (but_last 41 REST.querySuggestionsPromptData_text_3)
               (after 1 REST.querySuggestionsPromptData_text_4)
               _ _ _ _ _ eq_refl eq_refl)
    | exact (lemma _ _ _ _ _ _
               (but_last 31 REST.querySuggestionsPromptData_text_4)
               (after 1 REST.querySuggestionsPromptData_text_5)
               _ _ _ _ _ eq_refl eq_refl) ].

(** The dashboard prompt of either service, once the join has succeeded
    and the instructions convert. *)
Lemma summary_prompts_text (raw nsi : JsVal) (joined : string) :
  call_join raw nl = Normal joined ->
  converts nsi = true ->
  SDK.summaryPromptText raw nsi
    = Normal (fill SDK.summary_pieces [joined; text_of nsi]) /\
  REST.finalPromptData raw nsi
    = Normal (fill REST.summary_pieces [joined; text_of nsi]).
Proof.
  intros Hj Hn.
  unfold SDK.summaryPromptText, SDK.finalPromptData, REST.finalPromptData.
  now rewrite Hj, (converts_text _ Hn).
Qed.

(** C6, as amended.  A missing [nextStepsInstructions] on /generateSummary,
    and a missing [queryResults], [querySummaries] or
    [nextStepsInstructions] on /generateQuerySuggestions, is read as
    undefined and spliced into the prompt of either service as the word
    undefined, whenever the values beside it convert to text (on
    /generateSummary: whenever the join succeeds); nothing validates or
    rejects the request.  On /generateQuerySummary a missing [description]
    or [nextStepsInstructions] is rendered as if it were the empty string,
    and a missing [query], like a missing [querySummaries] on
    /generateSummary, is a TypeError before any prompt exists. *)
Theorem missing_fields_render_undefined (req : request) :
  (lookup "nextStepsInstructions" (body req) = JUndefined ->
   forall joined, call_join (lookup "querySummaries" (body req)) nl = Normal joined ->
   (exists p, SDK.rendered_prompt GenerateSummary req = Normal p /\
              substring_of ("-----------" ++ line_feed ++ "    undefined" ++ line_feed ++
                            "    -----------") p) /\
   (exists p, REST.rendered_prompt GenerateSummary req = Normal p /\
              substring_of ("-----------" ++ line_feed ++ "    undefined" ++ line_feed ++
                            "    -----------") p)) /\
  (lookup "queryResults" (body req) = JUndefined ->
   converts (lookup "querySummaries" (body req)) = true ->
   converts (lookup "nextStepsInstructions" (body req)) = true ->
   (exists p, SDK.rendered_prompt GenerateQuerySuggestions req = Normal p /\
              substring_of "* **Current Data:** `undefined`" p) /\
   (exists p, REST.rendered_prompt GenerateQuerySuggestions req = Normal p /\
              substring_of "* **Current Data:** `undefined`" p)) /\
  (lookup "querySummaries" (body req) = JUndefined ->
   converts (lookup "queryResults" (body req)) = true ->
   converts (lookup "nextStepsInstructions" (body req)) = true ->
   (exists p, SDK.rendered_prompt GenerateQuerySuggestions req = Normal p /\
              substring_of "* **Previous Analysis and Next Steps:** `undefined`" p) /\
   (exists p, REST.rendered_prompt GenerateQuerySuggestions req = Normal p /\
              substring_of "* **Previous Analysis and Next Steps:** `undefined`" p)) /\
  (lookup "nextStepsInstructions" (body req) = JUndefined ->
   converts (lookup "queryResults" (body req)) = true ->
   converts (lookup "querySummaries" (body req)) = true ->
   (exists p, SDK.rendered_prompt GenerateQuerySuggestions req = Normal p /\
              substring_of "* **Next Step Instructions:** `undefined`" p) /\
   (exists p, REST.rendered_prompt GenerateQuerySuggestions req = Normal p /\
              substring_of "* **Next Step Instructions:** `undefined`" p)) /\
  (lookup "description" (body req) = JUndefined ->
   SDK.rendered_prompt GenerateQuerySummary req
     = SDK.queryPrompt (lookup "query" (body req)) (JStr "")
         (lookup "nextStepsInstructions" (body req)) /\
   REST.rendered_prompt GenerateQuerySummary req
     = REST.getQuerySummaryPrompt (lookup "query" (body req)) (JStr "")
         (lookup "nextStepsInstructions" (body req))) /\
  (lookup "nextStepsInstructions" (body req) = JUndefined ->
   SDK.rendered_prompt GenerateQuerySummary req
     = SDK.queryPrompt (lookup "query" (body req))
         (lookup "description" (body req)) (JStr "") /\
   REST.rendered_prompt GenerateQuerySummary req
     = REST.getQuerySummaryPrompt (lookup "query" (body req))
         (lookup "description" (body req)) (JStr "")) /\
  (lookup "query" (body req) = JUndefined ->
   SDK.rendered_prompt GenerateQuerySummary req = Throw TypeError /\
   REST.rendered_prompt GenerateQuerySummary req = Throw TypeError) /\
  (lookup "querySummaries" (body req) = JUndefined ->
   SDK.rendered_prompt GenerateSummary req = Throw TypeError /\
   REST.rendered_prompt GenerateSummary req = Throw TypeError).
Proof.
  assert (Hu : converts JUndefined = true) by reflexivity.
  unfold SDK.rendered_prompt, REST.rendered_prompt. cbv zeta.
  split; [| split; [| split; [| split; [| split; [| split; [| split]]]]]].
  - intros Hn joined Hj. rewrite Hn.
    destruct (summary_prompts_text _ JUndefined joined Hj Hu) as [-> ->].
    cbv [fill SDK.summary_pieces REST.summary_pieces].
    split; eexists; (split; [reflexivity |]);
      apply substring_of_skip, substring_of_skip.
    + exact (substring_of_framed_end SDK.finalPromptData_text_1
               (but_last 16 SDK.finalPromptData_text_1)
               ("-----------" ++ line_feed ++ "    ") "undefined"
               SDK.finalPromptData_text_2 (line_feed ++ "    -----------")
               (after 16 SDK.finalPromptData_text_2) eq_refl eq_refl).
    + exact (substring_of_framed_end REST.finalPromptData_text_1
               (but_last 16 REST.finalPromptData_text_1)
               ("-----------" ++ line_feed ++ "    ") "undefined"
               REST.finalPromptData_text_2 (line_feed ++ "    -----------")
               (after 16 REST.finalPromptData_text_2) eq_refl eq_refl).
  - intros H Hs Hn. rewrite H.
    rewrite (sdk_suggestions_text _ _ _ Hu Hs Hn),
      (rest_suggestions_text _ _ _ Hu Hs Hn).
    split; eexists; (split; [reflexivity |]).
    + sdk_suggestion_piece suggestions_current_data.
    + rest_suggestion_piece suggestions_current_data.
  - intros H Hr Hn. rewrite H.
    rewrite (sdk_suggestions_text _ _ _ Hr Hu Hn),
      (rest_suggestions_text _ _ _ Hr Hu Hn).
    split; eexists; (split; [reflexivity |]).
    + sdk_suggestion_piece suggestions_previous_analysis.
    + rest_suggestion_piece suggestions_previous_analysis.
  - intros H Hr Hs. rewrite H.
    rewrite (sdk_suggestions_text _ _ _ Hr Hs Hu),
      (rest_suggestions_text _ _ _ Hr Hs Hu).
    split; eexists; (split; [reflexivity |]).
    + sdk_suggestion_piece suggestions_instructions.
    + rest_suggestion_piece suggestions_instructions.
  - intros H. rewrite H. unfold SDK.queryPrompt, SDK.context, REST.getQuerySummaryPrompt.
    split; reflexivity.
  - intros H. rewrite H. unfold SDK.queryPrompt, SDK.context, REST.getQuerySummaryPrompt.
    split; reflexivity.
  - intros H. rewrite H.
    now rewrite sdk_queryPrompt_not_renderable, rest_queryPrompt_not_renderable.
  - intros H. rewrite H. split; reflexivity.
Qed.

(** C6: an authorized POST /generateQuerySummary without [description]
    and [nextStepsInstructions] is rendered by either service, and the
    prompt does not contain the word undefined. *)
Lemma missing_description_not_rendered_undefined :
  lookup "description" (body query_only_request) = JUndefined /\
  lookup "nextStepsInstructions" (body query_only_request) = JUndefined /\
  (exists p, SDK.rendered_prompt GenerateQuerySummary query_only_request = Normal p /\
             ~ substring_of "undefined" p) /\
  (exists p, REST.rendered_prompt GenerateQuerySummary query_only_request = Normal p /\
             ~ substring_of "undefined" p).
Proof.
  split; [reflexivity |]. split; [reflexivity |].
  split; eexists; (split; [vm_compute; reflexivity |]);
    apply not_contains; vm_compute; reflexivity.
Qed.

Lemma missing_fields_render_undefined_witness :
  (exists p, REST.rendered_prompt GenerateSummary summaries_only_request = Normal p /\
             substring_of "-----------
    undefined
    -----------" p) /\
  (exists p, SDK.rendered_prompt GenerateQuerySuggestions secret_only_request = Normal p /\
             substring_of "* **Current Data:** `undefined`" p).
Proof.
  destruct (missing_fields_render_undefined summaries_only_request)
    as (Hsummary & _).
  destruct (missing_fields_render_undefined secret_only_request)
    as (_ & Hresults & _).
  split.
  - refine (proj2 (Hsummary eq_refl _ _)). vm_compute. reflexivity.
  - exact (proj1 (Hresults eq_refl eq_refl eq_refl)).
Defined.

(** *** The two services side by side *)

Lemma append_cancel_l (a x y : string) : a ++ x = a ++ y -> x = y.
Proof.
  induction a as [|c a IH]; simpl; [trivial |]. intros [= H]. auto.
Qed.

Lemma diverge_spec (a b : string) :
  diverge a b = true -> forall x y, a ++ x <> b ++ y.
Proof.
  revert b. induction a as [|c a IH]; intros [|d b]; simpl; try discriminate.
  destruct (Ascii.eqb_spec c d) as [-> | Hcd].
  - intros H x y [= E]. exact (IH b H x y E).
  - intros _ x y [= E _]. contradiction.
Qed.

Lemma fill_head (p0 : string) (pieces values : list string) :
  exists rest, fill (p0 :: pieces) values = p0 ++ rest.
Proof.
  destruct values as [|v values]; cbn [fill].
  - exists "". clear. induction p0 as [|c p IH]; simpl; [reflexivity | now rewrite <- IH].
  - eexists. reflexivity.
Qed.

Lemma fill_diverge (p0 q0 : string) (ps qs vs ws : list string) :
  diverge p0 q0 = true -> fill (p0 :: ps) vs <> fill (q0 :: qs) ws.
Proof.
  intros H.
  destruct (fill_head p0 ps vs) as [x ->], (fill_head q0 qs ws) as [y ->].
  now apply diverge_spec.
Qed.

(** The values depend on the conditional only through the note of the
    query. *)
Lemma query_values_note (f g : JsVal -> completion string)
    (query description nsi : JsVal) :
  f (prop query "note_text") = g (prop query "note_text") ->
  query_values f query description nsi = query_values g query description nsi.
Proof.
  intros H. unfold query_values, get.
  destruct (ToString (or_else nsi (JStr ""))); cbn [cbind]; [| reflexivity].
  destruct (ToString (or_else description (JStr ""))); cbn [cbind]; [| reflexivity].
  destruct (is_nullish query); cbn [cbind]; [reflexivity |].
  destruct (ToString (prop query "title")); cbn [cbind]; [| reflexivity].
  now rewrite H.
Qed.

(** The two conditionals on the note fail on the same notes. *)
Lemma query_values_together (query description nsi : JsVal) :
  match query_values SDK.note_segment query description nsi,
        query_values REST.note_segment query description nsi with
  | Normal _, Normal _ => True
  | Throw _, Throw _ => True
  | _, _ => False
  end.
Proof.
  unfold query_values.
  destruct (ToString (or_else nsi (JStr ""))); cbn [cbind]; [| exact I].
  destruct (ToString (or_else description (JStr ""))); cbn [cbind]; [| exact I].
  destruct (get query "title") as [title|]; cbn [cbind]; [| exact I].
  destruct (ToString title); cbn [cbind]; [| exact I].
  destruct (get query "note_text") as [note|]; cbn [cbind]; [| exact I].
  pose proof (note_segments_throw_together note) as [Hsr Hrs].
  destruct (SDK.note_segment note) as [ns|], (REST.note_segment note) as [nr|];
    cbn [cbind];
    try exact I;
    try (destruct Hsr as [t Ht]; [eexists; reflexivity | discriminate]);
    try (destruct Hrs as [t Ht]; [eexists; reflexivity | discriminate]).
  destruct (get query "queryBody") as [queryBody|]; cbn [cbind]; [| exact I].
  destruct (get queryBody "fields") as [fields|]; cbn [cbind]; [| exact I].
  destruct (ToString fields); cbn [cbind]; [| exact I].
  destruct (get query "queryData") as [queryData|]; cbn [cbind]; [| exact I].
  destruct (ToString (JSON_stringify queryData)); cbn [cbind]; exact I.
Qed.

Lemma suggestion_values_throws (queryResults querySummaries nsi : JsVal) (e : exn) :
  suggestion_values queryResults querySummaries nsi = Throw e -> e = TypeError.
Proof.
  unfold suggestion_values.
  repeat match goal with
  | |- context [cbind ?c _] =>
      lazymatch c with
      | cbind _ _ => fail
      | _ =>
          let E := fresh "E" in
          destruct c eqn:E; cbn [cbind];
          [| intros [= <-]; exact (ToString_throws _ _ E)]
      end
  end.
  discriminate.
Qed.

Lemma call_join_throws (raw : JsVal) (sep : string) (e : exn) :
  call_join raw sep = Throw e -> e = TypeError.
Proof.
  destruct raw; cbn [call_join]; try (now intros [= <-]).
  pose proof (Array_join_cases sep elems) as H.
  destruct (Array_join sep elems); [discriminate |]. now intros [= <-].
Qed.

Lemma summary_values_throws (raw nsi : JsVal) (e : exn) :
  summary_values raw nsi = Throw e -> e = TypeError.
Proof.
  unfold summary_values.
  destruct (call_join raw nl) eqn:Hj; cbn [cbind].
  - destruct (ToString nsi) eqn:Hn; cbn [cbind]; [discriminate |].
    intros [= <-]. exact (ToString_throws _ _ Hn).
  - intros [= <-]. exact (call_join_throws _ _ _ Hj).
Qed.

(** C7, as amended.  For every identical input the corresponding builders
    of the two services throw together (a TypeError) or render together,
    and they put the same values, in the same order, between their fixed
    pieces of text; the fixed text of the two services differs, so the two
    rendered prompts are never equal.  In the query-summary template the
    note is the same value in both services whenever [note_text] is neither
    the empty string nor null. *)
Theorem variants_fill_same_values_into_different_text :
  (forall query description nsi : JsVal,
     SDK.queryPrompt query description nsi =
       cbind (query_values SDK.note_segment query description nsi)
             (fun values => Normal (fill SDK.query_pieces values)) /\
     REST.getQuerySummaryPrompt query description nsi =
       cbind (query_values REST.note_segment query description nsi)
             (fun values => Normal (fill REST.query_pieces values)) /\
     (strict_neq (prop query "note_text") (CString "")
      && strict_neq (prop query "note_text") CNull = true ->
      query_values SDK.note_segment query description nsi
      = query_values REST.note_segment query description nsi) /\
     (SDK.queryPrompt query description nsi = Throw TypeError /\
      REST.getQuerySummaryPrompt query description nsi = Throw TypeError \/
      exists ps pr,
        SDK.queryPrompt query description nsi = Normal ps /\
        REST.getQuerySummaryPrompt query description nsi = Normal pr /\
        ps <> pr)) /\
  (forall raw nsi : JsVal,
     SDK.summaryPromptText raw nsi =
       cbind (summary_values raw nsi)
             (fun values => Normal (fill SDK.summary_pieces values)) /\
     REST.finalPromptData raw nsi =
       cbind (summary_values raw nsi)
             (fun values => Normal (fill REST.summary_pieces values)) /\
     (SDK.summaryPromptText raw nsi = Throw TypeError /\
      REST.finalPromptData raw nsi = Throw TypeError \/
      exists ps pr,
        SDK.summaryPromptText raw nsi = Normal ps /\
        REST.finalPromptData raw nsi = Normal pr /\
        ps <> pr)) /\
  (forall queryResults querySummaries nsi : JsVal,
     SDK.querySuggestionsPromptData queryResults querySummaries nsi =
       cbind (suggestion_values queryResults querySummaries nsi)
             (fun values => Normal (fill SDK.suggestion_pieces values)) /\
     REST.querySuggestionsPromptData queryResults querySummaries nsi =
       cbind (suggestion_values queryResults querySummaries nsi)
             (fun values => Normal (fill REST.suggestion_pieces values)) /\
     (SDK.querySuggestionsPromptData queryResults querySummaries nsi = Throw TypeError /\
      REST.querySuggestionsPromptData queryResults querySummaries nsi = Throw TypeError \/
      exists ps pr,
        SDK.querySuggestionsPromptData queryResults querySummaries nsi = Normal ps /\
        REST.querySuggestionsPromptData queryResults querySummaries nsi = Normal pr /\
        ps <> pr)).
Proof.
  split; [| split].
  - intros query description nsi.
    rewrite sdk_queryPrompt_values, rest_queryPrompt_values.
    split; [reflexivity |]. split; [reflexivity |]. split.
    + intros H. apply query_values_note.
      unfold SDK.note_segment, REST.note_segment. rewrite H.
      apply andb_true_iff in H as [-> _]. reflexivity.
    + pose proof (query_values_together query description nsi) as T.
      destruct (query_values SDK.note_segment query description nsi) as [vs|es] eqn:Hs,
        (query_values REST.note_segment query description nsi) as [vr|er] eqn:Hr;
        try contradiction; cbn [cbind].
      * right. do 2 eexists. split; [reflexivity |]. split; [reflexivity |].
        apply fill_diverge. vm_compute. reflexivity.
      * left.
        rewrite (query_values_throws _ _ _ _ _ sdk_note_segment_throws Hs),
          (query_values_throws _ _ _ _ _ rest_note_segment_throws Hr).
        split; reflexivity.
  - intros raw nsi.
    assert (Es : SDK.summaryPromptText raw nsi =
                 cbind (summary_values raw nsi)
                   (fun values => Normal (fill SDK.summary_pieces values))).
    { unfold SDK.summaryPromptText, SDK.finalPromptData, summary_values.
      destruct (call_join raw nl); cbn [cbind]; [| reflexivity].
      destruct (ToString nsi); reflexivity. }
    assert (Er : REST.finalPromptData raw nsi =
                 cbind (summary_values raw nsi)
                   (fun values => Normal (fill REST.summary_pieces values))).
    { unfold REST.finalPromptData, summary_values.
      destruct (call_join raw nl); cbn [cbind]; [| reflexivity].
      destruct (ToString nsi); reflexivity. }
    rewrite Es, Er. split; [reflexivity |]. split; [reflexivity |].
    destruct (summary_values raw nsi) as [vs|e] eqn:Hv; cbn [cbind].
    + right. do 2 eexists. split; [reflexivity |]. split; [reflexivity |].
      apply fill_diverge. vm_compute. reflexivity.
    + left. rewrite (summary_values_throws _ _ _ Hv). split; reflexivity.
  - intros queryResults querySummaries nsi.
    assert (Es : SDK.querySuggestionsPromptData queryResults querySummaries nsi =
                 cbind (suggestion_values queryResults querySummaries nsi)
                   (fun values => Normal (fill SDK.suggestion_pieces values))).
    { unfold SDK.querySuggestionsPromptData, suggestion_values. repeat step_cbind. }
    assert (Er : REST.querySuggestionsPromptData queryResults querySummaries nsi =
                 cbind (suggestion_values queryResults querySummaries nsi)
                   (fun values => Normal (fill REST.suggestion_pieces values))).
    { unfold REST.querySuggestionsPromptData, suggestion_values. repeat step_cbind. }
    rewrite Es, Er. split; [reflexivity |]. split; [reflexivity |].
    destruct (suggestion_values queryResults querySummaries nsi) as [vs|e] eqn:Hv;
      cbn [cbind].
    + right. do 2 eexists. split; [reflexivity |]. split; [reflexivity |].
      unfold suggestion_values in Hv.
      repeat match type of Hv with
      | context [cbind ?c _] =>
          lazymatch c with
          | cbind _ _ => fail
          | _ => destruct c; cbn [cbind] in Hv; [| discriminate]
          end
      end.
      injection Hv as <-.
      cbv [fill SDK.suggestion_pieces REST.suggestion_pieces].
      change REST.querySuggestionsPromptData_text_0
        with SDK.querySuggestionsPromptData_text_0.
      change REST.querySuggestionsPromptData_text_1
        with SDK.querySuggestionsPromptData_text_1.
      change REST.querySuggestionsPromptData_text_2
        with SDK.querySuggestionsPromptData_text_2.
      change REST.querySuggestionsPromptData_text_3
        with SDK.querySuggestionsPromptData_text_3.
      change REST.querySuggestionsPromptData_text_4
        with SDK.querySuggestionsPromptData_text_4.
      intros H. repeat apply append_cancel_l in H.
      apply (f_equal (fun s => String.eqb s REST.querySuggestionsPromptData_text_5)) in H.
      vm_compute in H. discriminate.
    + left. rewrite (suggestion_values_throws _ _ _ _ Hv). split; reflexivity.
Qed.

(** C7: for one and the same request, each of the three builders of the
    SDK service renders a text that differs from the text of the REST
    service. *)
Lemma variants_render_different_prompts :
  SDK.rendered_prompt GenerateQuerySummary full_request
    <> REST.rendered_prompt GenerateQuerySummary full_request /\
  SDK.rendered_prompt GenerateSummary full_request
    <> REST.rendered_prompt GenerateSummary full_request /\
  SDK.rendered_prompt GenerateQuerySuggestions full_request
    <> REST.rendered_prompt GenerateQuerySuggestions full_request.
Proof.
  repeat split; apply same_text_false; vm_compute; reflexivity.
Qed.

Lemma variants_fill_same_values_into_different_text_witness :
  query_values SDK.note_segment (sample_query (JStr "traffic by source"))
    (JStr "Marketing overview") (JStr "Be specific")
  = query_values REST.note_segment (sample_query (JStr "traffic by source"))
      (JStr "Marketing overview") (JStr "Be specific").
Proof.
  destruct variants_fill_same_values_into_different_text as (Hquery & _).
  destruct (Hquery (sample_query (JStr "traffic by source"))
              (JStr "Marketing overview") (JStr "Be specific"))
    as (_ & _ & Hnote & _).
  exact (Hnote eq_refl).
Defined.

(** A note that is a non-empty string is rendered after its label by
    either service. *)
Lemma present_note_is_rendered (query description nsi : JsVal) (note : string) :
  readable query = true ->
  converts description = true ->
  converts nsi = true ->
  prop query "note_text" = JStr note ->
  note <> "" ->
  (exists p, SDK.queryPrompt query description nsi = Normal p /\
             substring_of ("Query Note: " ++ note) p) /\
  (exists p, REST.getQuerySummaryPrompt query description nsi = Normal p /\
             substring_of ("Query Note: " ++ note) p).
Proof.
  intros Hr Hd Hn Hnote Hne.
  rewrite (sdk_queryPrompt_readable _ _ _ Hr Hd Hn),
    (rest_queryPrompt_readable _ _ _ Hr Hd Hn), Hnote.
  assert (Hs : strict_eq (JStr note) (CString "") || strict_eq (JStr note) CNull = false).
  { simpl. rewrite orb_false_r. now apply String.eqb_neq. }
  rewrite Hs.
  split; eexists; (split; [reflexivity |]);
    cbv [fill SDK.query_pieces REST.query_pieces];
    do 7 apply substring_of_skip; apply substring_of_here.
Qed.

(** C2, at the failing input: a query whose [note_text] is the empty
    string.  The SDK service renders the label "Query Note: " all the same
    (followed by nothing), where the REST service leaves it out; and for a
    query with no [note_text] at all both services render
    "Query Note: undefined". *)
Theorem sdk_renders_note_label_for_empty_note :
  (exists p, SDK.queryPrompt (sample_query (JStr "")) (JStr "Marketing overview")
               (JStr "Be specific") = Normal p /\
             substring_of "Query Note: " p) /\
  (exists p, REST.getQuerySummaryPrompt (sample_query (JStr ""))
               (JStr "Marketing overview") (JStr "Be specific") = Normal p /\
             ~ substring_of "Query Note: " p) /\
  (exists p, SDK.queryPrompt query_without_note (JStr "Marketing overview")
               (JStr "Be specific") = Normal p /\
             substring_of "Query Note: undefined" p) /\
  (exists p, REST.getQuerySummaryPrompt query_without_note
               (JStr "Marketing overview") (JStr "Be specific") = Normal p /\
             substring_of "Query Note: undefined" p).
Proof.
  repeat split; eexists; (split; [vm_compute; reflexivity |]);
    first [ apply contains_spec; vm_compute; reflexivity
          | apply not_contains; vm_compute; reflexivity ].
Qed.

(** * Further properties of the services *)

(** ** Replies and model calls *)

Lemma SerializeJSON_undefined (v : JsVal) :
  SerializeJSON v = None <-> v = JUndefined.
Proof. destruct v; simpl; split; intros H; try discriminate; reflexivity. Qed.

Lemma sent_text_json (field : string) (v : JsVal) :
  let resp := {| status := 200; payload_of := Json field v |} in
  v = JUndefined /\ sent_text resp = "{}" \/
  exists t, SerializeJSON v = Some t /\
            sent_text resp = "{" ++ QuoteJSONString field ++ ":" ++ t ++ "}".
Proof.
  cbv zeta. unfold sent_text, JSON_stringify. cbn [payload_of SerializeJSON flat_map].
  destruct (SerializeJSON v) as [t|] eqn:E.
  - right. exists t. split; [reflexivity |]. cbn [app String.concat text_of].
    now rewrite !append_assoc.
  - left. split; [now apply SerializeJSON_undefined | reflexivity].
Qed.

Lemma or_else_defined (v : JsVal) : or_else v (JStr "") <> JUndefined.
Proof. unfold or_else. destruct v; simpl; try discriminate; repeat match goal with |- context [if ?c then _ else _] => destruct c end; discriminate. Qed.

Lemma rest_candidate_text_defined (data v : JsVal) :
  REST.candidate_text data = Normal v -> v <> JUndefined.
Proof.
  unfold REST.candidate_text.
  repeat match goal with
  | |- context [cbind ?c _] =>
      lazymatch c with
      | cbind _ _ => fail
      | _ => destruct c; cbn [cbind]; [| discriminate]
      end
  end.
  intros [= <-]. apply or_else_defined.
Qed.

Lemma rest_callModel_defined (w : REST.world) (tok : JsVal) (p : string) (v : JsVal) :
  outcome (REST.callModel w tok p) = Normal v -> v <> JUndefined.
Proof.
  unfold REST.callModel.
  destruct (REST.fetch w _ p) as [resp|e]; run_monad; [| discriminate].
  destruct (REST.resp_ok resp); run_monad.
  - destruct (REST.resp_json resp) as [data|e]; run_monad; [| discriminate].
    destruct (get data "error") as [err|e]; run_monad; [| discriminate].
    destruct (ToBoolean err); run_monad.
    + destruct (get err "message"); discriminate.
    + destruct (REST.candidate_text data) eqn:E; run_monad; [| discriminate].
      intros [= <-]. exact (rest_candidate_text_defined _ _ E).
  - destruct (REST.resp_text resp); discriminate.
Qed.

(** X1.  Every request that reaches the routes is answered by either
    service, and no exception leaves the route: the reply is the 403 of the
    gate, the fixed 500, or a 200 sent by [res.json].  In the REST service
    the body of a 200 always holds the single field of the route; in the
    SDK service it holds that field unless the text read from the reply of
    the model is undefined, and then the body is the empty object. *)
Theorem every_request_is_answered
    (cfg : config) (ws : SDK.world) (wr : REST.world) (r : route) (req : request) :
  (exists resp, outcome (SDK.app cfg ws r req) = Normal resp /\
     (resp = forbidden \/ resp = internal_error \/
      exists v, resp = {| status := 200; payload_of := Json (result_field r) v |} /\
        (v = JUndefined /\ sent_text resp = "{}" \/
         exists t, SerializeJSON v = Some t /\
           sent_text resp = "{" ++ QuoteJSONString (result_field r) ++ ":" ++ t ++ "}"))) /\
  (exists resp, outcome (REST.app cfg wr r req) = Normal resp /\
     (resp = forbidden \/ resp = internal_error \/
      exists v t, resp = {| status := 200; payload_of := Json (result_field r) v |} /\
        SerializeJSON v = Some t /\
        sent_text resp = "{" ++ QuoteJSONString (result_field r) ++ ":" ++ t ++ "}")).
Proof.
  rewrite sdk_app_run, rest_app_run.
  destruct (passes cfg req);
    [| split; eexists; (split; [reflexivity |]); now left].
  split.
  - cbn [outcome snd]. rewrite sdk_handler_run.
    destruct (SDK.rendered_prompt r req) as [p|e];
      [destruct (cbind (SDK.generateContent ws p) SDK.candidate_text) as [v|e] |];
      eexists; (split; [reflexivity |]); try (right; left; reflexivity).
    right; right. exists v. split; [reflexivity |].
    exact (sent_text_json (result_field r) v).
  - rewrite rest_handler_run.
    destruct (REST.access_token wr) as [tok|e];
      [destruct (REST.rendered_prompt r req) as [p|e];
       [destruct (outcome (REST.callModel wr tok p)) as [v|e] eqn:Hv |] |];
      eexists; (split; [reflexivity |]); try (right; left; reflexivity).
    right; right.
    destruct (sent_text_json (result_field r) v) as [[Hu _] | (t & Ht & Hs)].
    + now destruct (rest_callModel_defined _ _ _ _ Hv).
    + exists v, t. repeat split; assumption.
Qed.

(** X2.  A request causes at most one call of the model, in either
    service: nothing is retried, whatever the model answers. *)
Theorem at_most_one_model_call
    (cfg : config) (ws : SDK.world) (wr : REST.world) (r : route) (req : request) :
  length (model_calls (trace (SDK.app cfg ws r req))) <= 1 /\
  length (model_calls (trace (REST.app cfg wr r req))) <= 1.
Proof.
  rewrite sdk_app_run, rest_app_run.
  destruct (passes cfg req).
  - cbn [trace fst model_calls filter is_model_call SDK.gate_log].
    fold (model_calls (trace (SDK.handler ws r req))).
    fold (model_calls (trace (REST.handler wr r req))).
    rewrite sdk_model_calls, rest_model_calls.
    destruct (SDK.rendered_prompt r req), (REST.access_token wr),
      (REST.rendered_prompt r req); simpl; lia.
  - simpl; lia.
Qed.

(** X3.  When the access token cannot be obtained, the REST service
    answers an authorized request with the fixed 500 on every route: the
    failure is logged by the credential helper and again by the route, and
    the model endpoint is never called. *)
Theorem token_failure_answers_500
    (cfg : config) (wr : REST.world) (r : route) (req : request) (e : exn) :
  passes cfg req = true ->
  REST.access_token wr = Throw e ->
  REST.app cfg wr r req =
  ([AccessTokenRequest;
    ConsoleError [ArgValue (JStr "Error getting access token:"); ArgError e];
    ConsoleError [ArgValue (JStr (REST.error_label r)); ArgError e]],
   Normal internal_error).
Proof.
  intros Hp Htok. now rewrite rest_app_run, Hp, rest_handler_run, Htok.
Qed.

Lemma token_failure_answers_500_witness :
  REST.app sample_cfg (rest_world_without_token (Error "no credentials"))
    GenerateQuerySummary full_request =
  ([AccessTokenRequest;
    ConsoleError [ArgValue (JStr "Error getting access token:");
                  ArgError (Error "no credentials")];
    ConsoleError [ArgValue (JStr "Error in /generateQuerySummary:");
                  ArgError (Error "no credentials")]],
   Normal internal_error).
Proof.
  exact (token_failure_answers_500 sample_cfg
           (rest_world_without_token (Error "no credentials"))
           GenerateQuerySummary full_request (Error "no credentials")
           eq_refl eq_refl).
Defined.

Lemma rest_callModel_error_field (w : REST.world) (tok : JsVal) (p : string)
    (resp : REST.http_response) (data err : JsVal) :
  REST.fetch w (REST.bearer tok) p = Normal resp ->
  REST.resp_ok resp = true ->
  REST.resp_json resp = Normal data ->
  get data "error" = Normal err ->
  ToBoolean err = true ->
  outcome (REST.callModel w tok p)
  = Throw (Error ("Vertex AI API error: " ++ text_of (prop err "message"))).
Proof.
  unfold REST.callModel, REST.bearer. intros -> Hok Hjson Herr Htruthy.
  run_monad. rewrite Hok, Hjson. run_monad. rewrite Herr. run_monad.
  rewrite Htruthy. unfold get.
  destruct err; try discriminate; reflexivity.
Qed.

Lemma rest_callModel_json_fails (w : REST.world) (tok : JsVal) (p : string)
    (resp : REST.http_response) (e : exn) :
  REST.fetch w (REST.bearer tok) p = Normal resp ->
  REST.resp_ok resp = true ->
  REST.resp_json resp = Throw e ->
  outcome (REST.callModel w tok p) = Throw e.
Proof.
  unfold REST.callModel, REST.bearer. intros -> Hok Hjson.
  run_monad. rewrite Hok, Hjson. reflexivity.
Qed.

(** X4.  When the model endpoint answers with a success status, the REST
    service still answers the fixed 500 if the body does not decode, or if
    the decoded body has a truthy [error] field: then the logged error is
    "Vertex AI API error: " followed by the text of [error.message], and
    the candidates of the body are not looked at. *)
Theorem provider_error_answers_500
    (cfg : config) (wr : REST.world) (r : route) (req : request)
    (tok : JsVal) (p : string) (resp : REST.http_response) :
  passes cfg req = true ->
  REST.access_token wr = Normal tok ->
  REST.rendered_prompt r req = Normal p ->
  REST.fetch wr (REST.bearer tok) p = Normal resp ->
  (200 <= REST.resp_status resp <= 299)%Z ->
  (forall e, REST.resp_json resp = Throw e ->
     REST.app cfg wr r req =
     ([AccessTokenRequest; Fetch (REST.bearer tok) p;
       ConsoleError [ArgValue (JStr (REST.error_label r)); ArgError e]],
      Normal internal_error)) /\
  (forall data err,
     REST.resp_json resp = Normal data ->
     get data "error" = Normal err ->
     ToBoolean err = true ->
     REST.app cfg wr r req =
     ([AccessTokenRequest; Fetch (REST.bearer tok) p;
       ConsoleError
         [ArgValue (JStr (REST.error_label r));
          ArgError (Error ("Vertex AI API error: " ++ text_of (prop err "message")))]],
      Normal internal_error)).
Proof.
  intros Hp Htok Hprompt Hfetch Hstatus.
  assert (Hok : REST.resp_ok resp = true).
  { unfold REST.resp_ok. apply andb_true_iff. split; apply Z.leb_le; lia. }
  rewrite rest_app_run, Hp, rest_handler_run, Htok, Hprompt.
  split.
  - intros e Hjson.
    now rewrite (rest_callModel_json_fails wr tok p resp e Hfetch Hok Hjson).
  - intros data err Hjson Herr Htruthy.
    now rewrite (rest_callModel_error_field wr tok p resp data err
                   Hfetch Hok Hjson Herr Htruthy).
Qed.

Lemma provider_error_answers_500_witness :
  exists p,
    REST.app sample_cfg (rest_world 200 "" (Normal (reply_with_error "quota exceeded")))
      GenerateQuerySuggestions full_request =
    ([AccessTokenRequest; Fetch (REST.bearer (JStr "ya29.token")) p;
      ConsoleError
        [ArgValue (JStr "Error in /generateQuerySuggestions:");
         ArgError (Error "Vertex AI API error: quota exceeded")]],
     Normal internal_error).
Proof.
  eexists.
  refine (proj2 (provider_error_answers_500 sample_cfg
                   (rest_world 200 "" (Normal (reply_with_error "quota exceeded")))
                   GenerateQuerySuggestions full_request (JStr "ya29.token") _
                   {| REST.resp_status := 200;
                      REST.resp_text := Normal "";
                      REST.resp_json := Normal (reply_with_error "quota exceeded") |}
                   eq_refl eq_refl eq_refl eq_refl _)
            (reply_with_error "quota exceeded")
            (JObj [("code", JStr "429"); ("message", JStr "quota exceeded")])
            eq_refl eq_refl eq_refl).
  simpl; lia.
Defined.

(** ** What is taken from the reply of the model *)

Lemma rest_decoded_run (cfg : config) (w : REST.world) (r : route)
    (req : request) (data : JsVal) :
  rest_decoded_reply cfg w r req data ->
  outcome (REST.app cfg w r req) =
  match REST.candidate_text data with
  | Normal v => Normal {| status := 200; payload_of := Json (result_field r) v |}
  | Throw _ => Normal internal_error
  end.
Proof.
  intros (Hp & tok & p & resp & err & Htok & Hprompt & Hfetch & Hok & Hjson & Herr & Hf).
  rewrite rest_app_run, Hp, rest_handler_run, Htok, Hprompt.
  rewrite (rest_callModel_ok w tok p resp data err Hfetch Hok Hjson Herr Hf).
  now destruct (REST.candidate_text data).
Qed.

Lemma sdk_decoded_run (cfg : config) (w : SDK.world) (r : route)
    (req : request) (data : JsVal) :
  sdk_decoded_reply cfg w r req data ->
  outcome (SDK.app cfg w r req) =
  match
    (candidates <~ get data "candidates" ;;
     candidate <~ get0 candidates ;;
     content <~ get candidate "content" ;;
     parts <~ get content "parts" ;;
     part <~ get0 parts ;;
     get part "text")%js
  with
  | Normal v => Normal {| status := 200; payload_of := Json (result_field r) v |}
  | Throw _ => Normal internal_error
  end.
Proof.
  intros (Hp & p & fr & Hprompt & Hcall & Hresp).
  rewrite sdk_app_run, Hp. cbn [outcome snd].
  rewrite sdk_handler_run, Hprompt, Hcall. cbv [cbind].
  unfold SDK.candidate_text. rewrite Hresp. cbv [cbind].
  destruct (get data "candidates") as [c|]; [| reflexivity].
  destruct (get0 c) as [c0|]; [| reflexivity].
  destruct (get c0 "content") as [k|]; [| reflexivity].
  destruct (get k "parts") as [ps|]; [| reflexivity].
  destruct (get0 ps) as [p0|]; [| reflexivity].
  now destruct (get p0 "text").
Qed.

Lemma prop_not_nullish (v : JsVal) (k : string) :
  is_nullish (prop v k) = false -> is_nullish v = false.
Proof. now destruct v. Qed.

Lemma get_prop (v : JsVal) (k : string) :
  is_nullish v = false -> get v k = Normal (prop v k).
Proof. unfold get. now intros ->. Qed.

(** X5.  Only the first part of the first candidate is read, whatever
    other candidates and parts the reply has.  The REST service answers 200
    with the [text] of that part, or with the empty string when the text is
    missing or falsy; the SDK service answers 200 with the [text] as it is,
    undefined included. *)
Theorem first_part_of_first_candidate_is_returned
    (cfg : config) (r : route) (req : request)
    (data candidate part : JsVal) (candidates parts : list JsVal) :
  prop data "candidates" = JArr (candidate :: candidates) ->
  prop (prop candidate "content") "parts" = JArr (part :: parts) ->
  is_nullish part = false ->
  (forall wr, rest_decoded_reply cfg wr r req data ->
     outcome (REST.app cfg wr r req)
     = Normal {| status := 200;
                 payload_of := Json (result_field r)
                                 (or_else (prop part "text") (JStr "")) |}) /\
  (forall ws, sdk_decoded_reply cfg ws r req data ->
     outcome (SDK.app cfg ws r req)
     = Normal {| status := 200;
                 payload_of := Json (result_field r) (prop part "text") |}).
Proof.
  intros Hc Hparts Hpart.
  assert (Hk : is_nullish (prop candidate "content") = false).
  { apply (prop_not_nullish _ "parts"). now rewrite Hparts. }
  assert (Hc0 : is_nullish candidate = false) by now apply prop_not_nullish in Hk.
  assert (Hd : is_nullish data = false).
  { apply (prop_not_nullish _ "candidates"). now rewrite Hc. }
  split.
  - intros wr H. rewrite (rest_decoded_run _ _ _ _ _ H).
    unfold REST.candidate_text.
    rewrite (get_prop data _ Hd), Hc. cbv [cbind get0 hd]. rewrite Hc0.
    rewrite (get_prop candidate _ Hc0). cbv [cbind]. rewrite Hk.
    rewrite (get_prop _ "parts" Hk), Hparts. cbv [cbind get0 hd]. rewrite Hpart.
    now rewrite (get_prop part _ Hpart).
  - intros ws H. rewrite (sdk_decoded_run _ _ _ _ _ H).
    rewrite (get_prop data _ Hd), Hc. cbv [cbind get0 hd].
    rewrite (get_prop candidate _ Hc0). cbv [cbind].
    rewrite (get_prop _ "parts" Hk), Hparts. cbv [cbind get0 hd].
    now rewrite (get_prop part _ Hpart).
Qed.

Lemma rest_decoded_sample (t : string) :
  rest_decoded_reply sample_cfg (rest_world 200 "" (Normal (reply_with_text t)))
    GenerateQuerySummary full_request (reply_with_text t).
Proof.
  split; [reflexivity |].
  eexists (JStr "ya29.token"), _,
    {| REST.resp_status := 200; REST.resp_text := Normal "";
       REST.resp_json := Normal (reply_with_text t) |}, JUndefined.
  repeat split; vm_compute; reflexivity.
Defined.

Lemma first_part_of_first_candidate_is_returned_witness :
  outcome (REST.app sample_cfg
             (rest_world 200 "" (Normal (reply_with_text "## Web Traffic")))
             GenerateQuerySummary full_request)
  = Normal {| status := 200;
              payload_of := Json "summary" (JStr "## Web Traffic") |}.
Proof.
  exact (proj1 (first_part_of_first_candidate_is_returned sample_cfg
                  GenerateQuerySummary full_request
                  (reply_with_text "## Web Traffic")
                  (JObj [("content",
                          JObj [("role", JStr "model");
                                ("parts", JArr [JObj [("text", JStr "## Web Traffic")]])])])
                  (JObj [("text", JStr "## Web Traffic")]) [] []
                  eq_refl eq_refl eq_refl)
           (rest_world 200 "" (Normal (reply_with_text "## Web Traffic")))
           (rest_decoded_sample "## Web Traffic")).
Defined.

Lemma get_normal_not_nullish (v : JsVal) (k : string) (x : JsVal) :
  get v k = Normal x -> is_nullish v = false.
Proof. unfold get. now destruct (is_nullish v). Qed.

(** X6.  The chain that reads the text in the REST service guards three
    places only.  A decoded reply with no [candidates] at all (missing or
    null), or whose first candidate has a [content] without [parts], makes
    the read throw: the endpoint answers the fixed 500, not 200 with an
    empty text. *)
Theorem unguarded_segments_answer_500
    (cfg : config) (wr : REST.world) (r : route) (req : request) (data : JsVal) :
  rest_decoded_reply cfg wr r req data ->
  is_nullish (prop data "candidates") = true \/
  (exists candidate candidates,
     prop data "candidates" = JArr (candidate :: candidates) /\
     is_nullish (prop candidate "content") = false /\
     is_nullish (prop (prop candidate "content") "parts") = true) ->
  REST.candidate_text data = Throw TypeError /\
  outcome (REST.app cfg wr r req) = Normal internal_error.
Proof.
  intros H Hcases.
  assert (Hd : is_nullish data = false).
  { destruct H as (_ & _ & _ & _ & err & _ & _ & _ & _ & _ & Herr & _).
    exact (get_normal_not_nullish _ _ _ Herr). }
  assert (Ht : REST.candidate_text data = Throw TypeError).
  { unfold REST.candidate_text. rewrite (get_prop data _ Hd). cbv [cbind].
    destruct Hcases as [Hc | (candidate & candidates & Hc & Hk & Hparts)].
    - unfold get0. now destruct (prop data "candidates").
    - rewrite Hc. cbv [get0 hd cbind].
      assert (Hc0 : is_nullish candidate = false) by now apply prop_not_nullish in Hk.
      rewrite Hc0, (get_prop candidate _ Hc0). cbv [cbind].
      rewrite Hk, (get_prop _ "parts" Hk). cbv [cbind].
      unfold get0. now destruct (prop (prop candidate "content") "parts"). }
  split; [exact Ht |].
  now rewrite (rest_decoded_run _ _ _ _ _ H), Ht.
Qed.

Lemma rest_decoded_empty_object :
  rest_decoded_reply sample_cfg
    (rest_world 200 "" (Normal (JObj [("promptFeedback", JObj [])])))
    GenerateSummary full_request (JObj [("promptFeedback", JObj [])]).
Proof.
  split; [reflexivity |].
  eexists (JStr "ya29.token"), _,
    {| REST.resp_status := 200; REST.resp_text := Normal "";
       REST.resp_json := Normal (JObj [("promptFeedback", JObj [])]) |}, JUndefined.
  repeat split; vm_compute; reflexivity.
Defined.

Lemma unguarded_segments_answer_500_witness :
  outcome (REST.app sample_cfg
             (rest_world 200 "" (Normal (JObj [("promptFeedback", JObj [])])))
             GenerateSummary full_request)
  = Normal internal_error.
Proof.
  exact (proj2 (unguarded_segments_answer_500 sample_cfg
                  (rest_world 200 "" (Normal (JObj [("promptFeedback", JObj [])])))
                  GenerateSummary full_request (JObj [("promptFeedback", JObj [])])
                  rest_decoded_empty_object (or_introl eq_refl))).
Defined.

(** X7.  Where the chain is guarded the two services part ways.  When the
    first candidate is missing, null or has no [content], or the first part
    is missing or null, the REST service answers 200 with the empty string;
    the SDK service, reading the same reply, answers the fixed 500. *)
Theorem guarded_segments_default_to_empty
    (cfg : config) (r : route) (req : request) (data : JsVal)
    (candidates : list JsVal) :
  prop data "candidates" = JArr candidates ->
  is_nullish (hd JUndefined candidates) = true \/
  is_nullish (prop (hd JUndefined candidates) "content") = true \/
  (exists parts,
     prop (prop (hd JUndefined candidates) "content") "parts" = JArr parts /\
     is_nullish (hd JUndefined parts) = true) ->
  (forall wr, rest_decoded_reply cfg wr r req data ->
     outcome (REST.app cfg wr r req)
     = Normal {| status := 200; payload_of := Json (result_field r) (JStr "") |}) /\
  (forall ws, sdk_decoded_reply cfg ws r req data ->
     outcome (SDK.app cfg ws r req) = Normal internal_error).
Proof.
  intros Hc Hcases.
  assert (Hd : is_nullish data = false).
  { apply (prop_not_nullish _ "candidates"). now rewrite Hc. }
  split.
  - intros wr H. rewrite (rest_decoded_run _ _ _ _ _ H).
    unfold REST.candidate_text.
    rewrite (get_prop data _ Hd), Hc. cbv [cbind get0].
    destruct (is_nullish (hd JUndefined candidates)) eqn:Hc0; [reflexivity |].
    rewrite (get_prop _ "content" Hc0). cbv [cbind].
    destruct (is_nullish (prop (hd JUndefined candidates) "content")) eqn:Hk;
      [reflexivity |].
    destruct Hcases as [Hx | [Hx | (parts & Hparts & Hp0)]]; try discriminate.
    rewrite (get_prop _ "parts" Hk), Hparts. cbv [cbind get0]. now rewrite Hp0.
  - intros ws H. rewrite (sdk_decoded_run _ _ _ _ _ H).
    rewrite (get_prop data _ Hd), Hc. cbv [cbind get0].
    unfold get at 1.
    destruct (is_nullish (hd JUndefined candidates)) eqn:Hc0; [reflexivity |].
    cbv [cbind]. unfold get at 1.
    destruct (is_nullish (prop (hd JUndefined candidates) "content")) eqn:Hk;
      [reflexivity |].
    destruct Hcases as [Hx | [Hx | (parts & Hparts & Hp0)]]; try discriminate.
    cbv [cbind]. rewrite Hparts. cbv [get0 cbind]. unfold get. now rewrite Hp0.
Qed.

Lemma guarded_segments_default_to_empty_witness :
  outcome (REST.app sample_cfg
             (rest_world 200 "" (Normal (JObj [("candidates", JArr [JNull])])))
             GenerateQuerySummary full_request)
  = Normal {| status := 200; payload_of := Json "summary" (JStr "") |}.
Proof.
  refine (proj1 (guarded_segments_default_to_empty sample_cfg
                   GenerateQuerySummary full_request
                   (JObj [("candidates", JArr [JNull])]) [JNull]
                   eq_refl (or_introl eq_refl))
            (rest_world 200 "" (Normal (JObj [("candidates", JArr [JNull])]))) _).
  split; [reflexivity |].
  eexists (JStr "ya29.token"), _,
    {| REST.resp_status := 200; REST.resp_text := Normal "";
       REST.resp_json := Normal (JObj [("candidates", JArr [JNull])]) |}, JUndefined.
  repeat split; vm_compute; reflexivity.
Defined.

(** ** What the prompts hold *)

(** X8.  For every query that can be read (it and its queryBody are not
    null or undefined, and its title, note and fields convert to text) and
    every description and instructions that convert to text, the
    query-summary prompt of either service is rendered and each label in it
    is followed directly by the text of its value, with no escaping: the
    title and the fields as ToString gives them (a missing one reads
    undefined, an array is joined by commas) and the query data as
    JSON.stringify gives it (undefined when missing). *)
Theorem query_values_follow_their_labels (query description nsi : JsVal) :
  readable query = true ->
  converts description = true ->
  converts nsi = true ->
  exists ps pr,
    SDK.queryPrompt query description nsi = Normal ps /\
    REST.getQuerySummaryPrompt query description nsi = Normal pr /\
    (forall p, p = ps \/ p = pr ->
       substring_of ("Summary style/specialized instructions: "
                     ++ text_of (or_else nsi (JStr ""))) p /\
       substring_of ("Dashboard Detail: "
                     ++ text_of (or_else description (JStr ""))) p /\
       substring_of ("Query Title: " ++ text_of (prop query "title")) p /\
       substring_of ("Query Fields: "
                     ++ text_of (prop (prop query "queryBody") "fields")) p /\
       substring_of ("Query Data: "
                     ++ text_of (JSON_stringify (prop query "queryData"))) p).
Proof.
  intros Hr Hd Hn.
  rewrite (sdk_queryPrompt_readable _ _ _ Hr Hd Hn),
          (rest_queryPrompt_readable _ _ _ Hr Hd Hn).
  do 2 eexists. split; [reflexivity |]. split; [reflexivity |].
  cbv [fill SDK.query_pieces REST.query_pieces].
  intros p [-> | ->]; repeat split.
  - exact (substring_of_label _
             (but_last 40 (SDK.queryPrompt_text_0 ++ SDK.context_text_0))
             "Summary style/specialized instructions: " _ _ eq_refl).
  - do 2 apply substring_of_skip.
    exact (substring_of_label _ (but_last 18 SDK.context_text_1)
             "Dashboard Detail: " _ _ eq_refl).
  - do 4 apply substring_of_skip.
    exact (substring_of_label _ (but_last 13 SDK.context_text_2)
             "Query Title: " _ _ eq_refl).
  - do 8 apply substring_of_skip.
    exact (substring_of_label _ (but_last 14 SDK.context_text_4)
             "Query Fields: " _ _ eq_refl).
  - do 10 apply substring_of_skip.
    exact (substring_of_label _ (but_last 12 SDK.context_text_5)
             "Query Data: " _ _ eq_refl).
  - exact (substring_of_label _ (but_last 40 REST.queryPrompt_text_0)
             "Summary style/specialized instructions: " _ _ eq_refl).
  - do 2 apply substring_of_skip.
    exact (substring_of_label _ (but_last 18 REST.queryPrompt_text_1)
             "Dashboard Detail: " _ _ eq_refl).
  - do 4 apply substring_of_skip.
    exact (substring_of_label _ (but_last 13 REST.queryPrompt_text_2)
             "Query Title: " _ _ eq_refl).
  - do 8 apply substring_of_skip.
    exact (substring_of_label _ (but_last 14 REST.queryPrompt_text_4)
             "Query Fields: " _ _ eq_refl).
  - do 10 apply substring_of_skip.
    exact (substring_of_label _ (but_last 12 REST.queryPrompt_text_5)
             "Query Data: " _ _ eq_refl).
Qed.

Lemma query_values_follow_their_labels_witness :
  exists ps pr,
    SDK.queryPrompt (JObj [("queryBody", JObj [])]) JUndefined JUndefined = Normal ps /\
    REST.getQuerySummaryPrompt (JObj [("queryBody", JObj [])]) JUndefined JUndefined
      = Normal pr /\
    substring_of "Query Title: undefined" ps /\
    substring_of "Query Fields: undefined" pr /\
    substring_of "Query Data: undefined" pr.
Proof.
  destruct (query_values_follow_their_labels (JObj [("queryBody", JObj [])])
              JUndefined JUndefined eq_refl eq_refl eq_refl)
    as (ps & pr & Hs & Hr & H).
  exists ps, pr. split; [exact Hs |]. split; [exact Hr |].
  destruct (H ps (or_introl eq_refl)) as (_ & _ & Ht & _).
  destruct (H pr (or_intror eq_refl)) as (_ & _ & _ & Hf & Hd).
  repeat split; assumption.
Defined.

(** X9.  A [description] or [nextStepsInstructions] that is falsy (null,
    false, 0, the empty string) is dropped from the query-summary prompt
    just as a missing one is: the prompt is the one rendered without the
    two fields. *)
Theorem falsy_description_is_dropped (query description nsi : JsVal) :
  ToBoolean description = false ->
  ToBoolean nsi = false ->
  SDK.queryPrompt query description nsi
    = SDK.queryPrompt query JUndefined JUndefined /\
  REST.getQuerySummaryPrompt query description nsi
    = REST.getQuerySummaryPrompt query JUndefined JUndefined.
Proof.
  intros Hd Hn.
  rewrite !sdk_queryPrompt_values, !rest_queryPrompt_values.
  unfold query_values, or_else. rewrite Hd, Hn. split; reflexivity.
Qed.

Lemma falsy_description_is_dropped_witness :
  SDK.queryPrompt (sample_query JNull) (JBool false) JNull
    = SDK.queryPrompt (sample_query JNull) JUndefined JUndefined.
Proof.
  exact (proj1 (falsy_description_is_dropped (sample_query JNull)
                  (JBool false) JNull eq_refl eq_refl)).
Defined.

(** X10.  An authorized POST /generateQuerySummary whose [query] is missing
    or null, or has no [queryBody], is answered with the fixed 500 and the
    model is not called.  The SDK service does nothing else; the REST
    service has by then already asked for an access token. *)
Theorem unreadable_query_answers_500
    (cfg : config) (ws : SDK.world) (wr : REST.world) (req : request) (tok : JsVal) :
  passes cfg req = true ->
  renderable (lookup "query" (body req)) = false ->
  REST.access_token wr = Normal tok ->
  SDK.app cfg ws GenerateQuerySummary req =
    ([SDK.gate_log cfg req;
      ConsoleLog [ArgValue (JStr (SDK.error_label GenerateQuerySummary));
                  ArgError TypeError]],
     Normal internal_error) /\
  REST.app cfg wr GenerateQuerySummary req =
    ([AccessTokenRequest;
      ConsoleError [ArgValue (JStr (REST.error_label GenerateQuerySummary));
                    ArgError TypeError]],
     Normal internal_error).
Proof.
  intros Hp Hr Htok.
  rewrite sdk_app_run, rest_app_run, Hp, sdk_handler_run, rest_handler_run, Htok.
  unfold SDK.rendered_prompt, REST.rendered_prompt. cbv zeta.
  rewrite (sdk_queryPrompt_not_renderable _ _ _ Hr),
          (rest_queryPrompt_not_renderable _ _ _ Hr).
  split; reflexivity.
Qed.

Lemma unreadable_query_answers_500_witness :
  REST.app sample_cfg (rest_world 200 "" (Normal (reply_with_text "ok")))
    GenerateQuerySummary unreadable_query_request =
  ([AccessTokenRequest;
    ConsoleError [ArgValue (JStr "Error in /generateQuerySummary:");
                  ArgError TypeError]],
   Normal internal_error).
Proof.
  exact (proj2 (unreadable_query_answers_500 sample_cfg
                  (sdk_world (reply_with_text "ok"))
                  (rest_world 200 "" (Normal (reply_with_text "ok")))
                  unreadable_query_request (JStr "ya29.token")
                  eq_refl eq_refl eq_refl)).
Defined.

Lemma text_of_strings (l : list string) :
  text_of (JArr (map JStr l)) = String.concat "," l.
Proof.
  rewrite text_of_array. f_equal. rewrite <- (joined_text_strings l) at 2.
  reflexivity.
Qed.

(** X11.  The suggestions prompt of either service renders its values
    with ToString.  Query results that are an object without a property of
    its own named toString read [object Object], so their content does not
    reach the model, and summaries that are an array of strings are joined
    by commas, not by line feeds.  Query results that are an object with a
    toString property of its own cannot be converted: rendering the prompt
    throws a TypeError in both services. *)
Theorem suggestions_render_objects_and_arrays
    (props : list (string * JsVal)) (summaries : list string) (nsi : JsVal) :
  converts nsi = true ->
  (has_own "toString" props = false ->
   exists ps pr,
     SDK.querySuggestionsPromptData (JObj props) (JArr (map JStr summaries)) nsi
       = Normal ps /\
     REST.querySuggestionsPromptData (JObj props) (JArr (map JStr summaries)) nsi
       = Normal pr /\
     substring_of "* **Current Data:** `[object Object]`" ps /\
     substring_of ("* **Previous Analysis and Next Steps:** `"
                   ++ String.concat "," summaries ++ "`") ps /\
     substring_of "* **Current Data:** `[object Object]`" pr /\
     substring_of ("* **Previous Analysis and Next Steps:** `"
                   ++ String.concat "," summaries ++ "`") pr) /\
  (has_own "toString" props = true ->
   SDK.querySuggestionsPromptData (JObj props) (JArr (map JStr summaries)) nsi
     = Throw TypeError /\
   REST.querySuggestionsPromptData (JObj props) (JArr (map JStr summaries)) nsi
     = Throw TypeError).
Proof.
  intros Hn.
  pose proof (converts_strings summaries) as Hs.
  split; intros Hp.
  - assert (Ho : converts (JObj props) = true)
      by now rewrite converts_object, Hp.
    rewrite (sdk_suggestions_text _ _ _ Ho Hs Hn),
            (rest_suggestions_text _ _ _ Ho Hs Hn).
    rewrite text_of_strings.
    do 2 eexists. split; [reflexivity |]. split; [reflexivity |].
    change (text_of (JObj props)) with "[object Object]".
    split; [| split; [| split]].
    + sdk_suggestion_piece suggestions_current_data.
    + sdk_suggestion_piece suggestions_previous_analysis.
    + rest_suggestion_piece suggestions_current_data.
    + rest_suggestion_piece suggestions_previous_analysis.
  - unfold SDK.querySuggestionsPromptData, REST.querySuggestionsPromptData.
    rewrite (converts_text _ Hn), (converts_text _ Hs). cbn [cbind ToString].
    rewrite Hp. split; reflexivity.
Qed.

Lemma suggestions_render_objects_and_arrays_witness :
  (exists ps,
     SDK.querySuggestionsPromptData (JObj [("rows", JStr "3")])
       (JArr [JStr "A"; JStr "B"]) (JStr "Be specific") = Normal ps /\
     substring_of "* **Current Data:** `[object Object]`" ps /\
     substring_of "* **Previous Analysis and Next Steps:** `A,B`" ps) /\
  REST.querySuggestionsPromptData (JObj [("toString", JStr "x")])
    (JArr [JStr "A"; JStr "B"]) (JStr "Be specific") = Throw TypeError.
Proof.
  split.
  - destruct (proj1 (suggestions_render_objects_and_arrays
                       [("rows", JStr "3")] ["A"; "B"]
                       (JStr "Be specific") eq_refl) eq_refl)
      as (ps & pr & Hs & _ & Hc & Hp & _).
    exists ps. repeat split; assumption.
  - exact (proj2 (proj2 (suggestions_render_objects_and_arrays
                           [("toString", JStr "x")] ["A"; "B"]
                           (JStr "Be specific") eq_refl) eq_refl)).
Defined.

(** ** The client *)

Lemma client_run (sdk : Client.extensionSDK) (secret_env : option string)
    (userQuestion : JsVal) (restfulService : string) :
  let via := if Client.is_local restfulService
             then Client.FetchProxy else Client.ServerProxy in
  let url := restfulService ++ "/generatePerspectiveAnalytics" in
  let text := Client.request_text sdk secret_env userQuestion restfulService in
  let failed := fun a =>
    ([Client.Post via url text; Client.LogError [ArgValue Client.failure_label; a]],
     Normal JNull) in
  Client.fetchPrescriptiveAnalysis sdk secret_env userQuestion restfulService =
  match Client.call_proxy sdk via url text with
  | Throw e => failed (ArgError e)
  | Normal response =>
      if is_nullish response then failed (ArgError TypeError)
      else if ToBoolean (prop response "ok") then
        if is_nullish (prop response "body") then failed (ArgError TypeError)
        else ([Client.Post via url text],
              Normal (prop (prop response "body") "suggestions"))
      else failed (ArgValue (prop response "statusText"))
  end.
Proof.
  cbv zeta. unfold Client.fetchPrescriptiveAnalysis, Client.post. cbv zeta.
  destruct (Client.call_proxy sdk _ _ _) as [response|e];
    cbv [wbind wlift wemit wcatch]; simpl; [| reflexivity].
  unfold get.
  destruct (is_nullish response); simpl; [reflexivity |].
  destruct (ToBoolean (prop response "ok")); simpl; [| reflexivity].
  destruct (is_nullish (prop response "body")); reflexivity.
Qed.

Lemma client_logged_run (sdk : Client.extensionSDK) (secret_env : option string)
    (userQuestion : JsVal) (restfulService : string) :
  let via := if Client.is_local restfulService
             then Client.FetchProxy else Client.ServerProxy in
  let url := restfulService ++ "/generatePerspectiveAnalytics" in
  let text := Client.request_text sdk secret_env userQuestion restfulService in
  let start :=
    [Client.Log [ArgValue (JStr "fetchPrescriptiveAnalysis userQuestion");
                 ArgValue userQuestion];
     Client.Log [ArgValue (JStr restfulService)];
     Client.Post via url text] in
  let seen := fun response =>
    Client.Log [ArgValue (JStr "fetchPrescriptiveAnalysis response");
                ArgValue response] in
  Client.fetchPrescriptiveAnalysis_logged sdk secret_env userQuestion restfulService =
  match Client.call_proxy sdk via url text with
  | Throw e =>
      ((start ++ [Client.LogError [ArgValue Client.failure_label; ArgError e]])%list,
       Normal JNull)
  | Normal response =>
      if is_nullish response then
        ((start ++ [seen response;
                    Client.LogError [ArgValue Client.failure_label;
                                     ArgError TypeError]])%list,
         Normal JNull)
      else if ToBoolean (prop response "ok") then
        ((start ++ [seen response])%list, Normal (prop response "body"))
      else
        ((start ++ [seen response;
                    Client.LogError [ArgValue Client.failure_label;
                                     ArgValue (prop response "statusText")]])%list,
         Normal JNull)
  end.
Proof.
  cbv zeta. unfold Client.fetchPrescriptiveAnalysis_logged, Client.post. cbv zeta.
  destruct (Client.call_proxy sdk _ _ _) as [response|e];
    cbv [wbind wlift wemit wcatch]; simpl; [| reflexivity].
  unfold get.
  destruct (is_nullish response); simpl; [reflexivity |].
  destruct (ToBoolean (prop response "ok")); reflexivity.
Qed.

(** X14.  The client function never throws, in either copy: it resolves
    to a value, and to null whenever the proxy call rejects or the
    response is missing or not ok. *)
Theorem client_resolves_to_null_on_failure
    (sdk : Client.extensionSDK) (secret_env : option string)
    (userQuestion : JsVal) (restfulService : string) :
  let via := if Client.is_local restfulService
             then Client.FetchProxy else Client.ServerProxy in
  let url := restfulService ++ "/generatePerspectiveAnalytics" in
  let text := Client.request_text sdk secret_env userQuestion restfulService in
  let result :=
    snd (Client.fetchPrescriptiveAnalysis sdk secret_env userQuestion restfulService) in
  let result_logged :=
    snd (Client.fetchPrescriptiveAnalysis_logged sdk secret_env userQuestion
           restfulService) in
  (exists v, result = Normal v) /\
  (exists v, result_logged = Normal v) /\
  (forall e, Client.call_proxy sdk via url text = Throw e ->
     result = Normal JNull /\ result_logged = Normal JNull) /\
  (forall response,
     Client.call_proxy sdk via url text = Normal response ->
     ToBoolean (prop response "ok") = false ->
     result = Normal JNull /\ result_logged = Normal JNull).
Proof.
  cbv zeta.
  pose proof (client_run sdk secret_env userQuestion restfulService) as H.
  pose proof (client_logged_run sdk secret_env userQuestion restfulService) as L.
  cbv zeta in H, L. rewrite H, L.
  destruct (Client.call_proxy sdk _ _ _) as [response|e];
    [ destruct (is_nullish response) eqn:Hn;
      [| destruct (ToBoolean (prop response "ok")) eqn:Hok;
         [ destruct (is_nullish (prop response "body")) |] ] |];
    cbn [snd];
    (split; [eexists; reflexivity | split; [eexists; reflexivity | split]]);
    try (intros e' He; first [discriminate | split; reflexivity]);
    try (intros r Hr Hf; injection Hr as <-;
         first [congruence | split; reflexivity]).
Qed.

(** X15.  Each call of the client function posts exactly once, to the
    service URL followed by /generatePerspectiveAnalytics.  It goes through
    the fetch proxy only when the service URL is exactly
    http://localhost:5000, and through the server proxy otherwise. *)
Theorem client_posts_once
    (sdk : Client.extensionSDK) (secret_env : option string)
    (userQuestion : JsVal) (restfulService : string) :
  let via := if String.eqb restfulService "http://localhost:5000"
             then Client.FetchProxy else Client.ServerProxy in
  let sent :=
    [Client.Post via (restfulService ++ "/generatePerspectiveAnalytics")
       (Client.request_text sdk secret_env userQuestion restfulService)] in
  Client.posts
    (fst (Client.fetchPrescriptiveAnalysis sdk secret_env userQuestion restfulService))
    = sent /\
  Client.posts
    (fst (Client.fetchPrescriptiveAnalysis_logged sdk secret_env userQuestion
            restfulService))
    = sent /\
  (via = Client.FetchProxy <-> restfulService = "http://localhost:5000").
Proof.
  cbv zeta.
  pose proof (client_run sdk secret_env userQuestion restfulService) as H.
  pose proof (client_logged_run sdk secret_env userQuestion restfulService) as L.
  cbv zeta in H, L. rewrite H, L. unfold Client.is_local.
  split; [| split].
  - destruct (Client.call_proxy sdk _ _ _) as [response|e]; [| reflexivity].
    destruct (is_nullish response); [reflexivity |].
    destruct (ToBoolean (prop response "ok")); [| reflexivity].
    destruct (is_nullish (prop response "body")); reflexivity.
  - destruct (Client.call_proxy sdk _ _ _) as [response|e]; [| reflexivity].
    destruct (is_nullish response); [reflexivity |].
    destruct (ToBoolean (prop response "ok")); reflexivity.
  - destruct (String.eqb_spec restfulService "http://localhost:5000");
      split; try discriminate; tauto.
Qed.

(** X16.  For a response that is ok the two copies of the client function
    differ: one resolves to the [suggestions] property of the response body
    (undefined when the body has none, null when there is no body), the
    other to the whole body. *)
Theorem client_result_of_ok_response
    (sdk : Client.extensionSDK) (secret_env : option string)
    (userQuestion : JsVal) (restfulService : string) (response : JsVal) :
  Client.call_proxy sdk
    (if Client.is_local restfulService then Client.FetchProxy else Client.ServerProxy)
    (restfulService ++ "/generatePerspectiveAnalytics")
    (Client.request_text sdk secret_env userQuestion restfulService)
  = Normal response ->
  ToBoolean (prop response "ok") = true ->
  snd (Client.fetchPrescriptiveAnalysis sdk secret_env userQuestion restfulService)
  = Normal (if is_nullish (prop response "body") then JNull
            else prop (prop response "body") "suggestions") /\
  snd (Client.fetchPrescriptiveAnalysis_logged sdk secret_env userQuestion
         restfulService)
  = Normal (prop response "body").
Proof.
  intros Hcall Hok.
  pose proof (client_run sdk secret_env userQuestion restfulService) as H.
  pose proof (client_logged_run sdk secret_env userQuestion restfulService) as L.
  cbv zeta in H, L. rewrite H, L, Hcall, Hok.
  assert (Hn : is_nullish response = false).
  { destruct response; try reflexivity; discriminate. }
  rewrite Hn. split; [| reflexivity].
  destruct (is_nullish (prop response "body")); reflexivity.
Qed.

Lemma client_result_of_ok_response_witness :
  snd (Client.fetchPrescriptiveAnalysis
         (sample_sdk (Normal (JObj [("ok", JBool true);
                                    ("body", JObj [("suggestions", JStr "[]")])])))
         None (JStr "why?") "https://svc.example")
  = Normal (JStr "[]") /\
  snd (Client.fetchPrescriptiveAnalysis_logged
         (sample_sdk (Normal (JObj [("ok", JBool true);
                                    ("body", JObj [("suggestions", JStr "[]")])])))
         None (JStr "why?") "https://svc.example")
  = Normal (JObj [("suggestions", JStr "[]")]).
Proof.
  exact (client_result_of_ok_response
           (sample_sdk (Normal (JObj [("ok", JBool true);
                                      ("body", JObj [("suggestions", JStr "[]")])])))
           None (JStr "why?") "https://svc.example"
           (JObj [("ok", JBool true); ("body", JObj [("suggestions", JStr "[]")])])
           eq_refl eq_refl).
Defined.

(** X17.  The secret in the posted body.  For the local service it is the
    environment variable: when that is unset the body has no
    [client_secret] member at all, and when it is set the body ends with
    that member, quoted as JSON.  For any other service the environment is
    not read: the body carries the secret key tag of the host. *)
Theorem client_secret_in_posted_body
    (sdk : Client.extensionSDK) (userQuestion : JsVal) :
  Client.request_text sdk None userQuestion "http://localhost:5000"
    = text_of (JSON_stringify (JObj [("query", userQuestion)])) /\
  (forall s, exists before,
     Client.request_text sdk (Some s) userQuestion "http://localhost:5000"
       = before ++ dq ++ "client_secret" ++ dq ++ ":" ++ QuoteJSONString s ++ "}") /\
  (forall restfulService secret_env,
     restfulService <> "http://localhost:5000" ->
     Client.request_text sdk secret_env userQuestion restfulService
       = text_of
           (JSON_stringify
              (JObj [("query", userQuestion);
                     ("client_secret",
                      Client.createSecretKeyTag sdk "genai_client_secret")]))).
Proof.
  split; [| split].
  - unfold Client.request_text, JSON_stringify. simpl.
    destruct (SerializeJSON userQuestion); reflexivity.
  - intros s. unfold Client.request_text, JSON_stringify.
    cbn [Client.is_local String.eqb Ascii.eqb Bool.eqb env_read env_value
         constant_value SerializeJSON flat_map].
    destruct (SerializeJSON userQuestion) as [t|]; cbn [app String.concat text_of].
    + exists ("{" ++ QuoteJSONString "query" ++ ":" ++ t ++ ",").
      rewrite !append_assoc. reflexivity.
    + exists "{". reflexivity.
  - intros restfulService secret_env Hn. unfold Client.request_text, Client.is_local.
    apply String.eqb_neq in Hn. now rewrite Hn.
Qed.

Lemma client_secret_in_posted_body_witness :
  Client.request_text (sample_sdk (Throw TypeError)) (Some "s3cret") (JStr "why?")
    "https://svc.example"
  = "{" ++ dq ++ "query" ++ dq ++ ":" ++ dq ++ "why?" ++ dq ++ ","
    ++ dq ++ "client_secret" ++ dq ++ ":" ++ dq ++ "{{genai_client_secret}}" ++ dq
    ++ "}".
Proof.
  destruct (client_secret_in_posted_body (sample_sdk (Throw TypeError)) (JStr "why?"))
    as (_ & _ & Hremote).
  rewrite (Hremote "https://svc.example" (Some "s3cret")).
  - reflexivity.
  - discriminate.
Defined.

(** ** The log of the gate and the dashboard data *)

(** X18.  The gate of the SDK service writes the received and the
    configured secret to the console before it compares them, for every
    request and on every route, rejected or not; the gate of the REST
    service writes nothing. *)
Theorem sdk_gate_logs_both_secrets
    (cfg : config) (ws : SDK.world) (wr : REST.world) (r : route) (req : request) :
  (exists later,
     trace (SDK.app cfg ws r req) =
     ConsoleLog [ArgValue (JStr "checking client secret");
                 ArgValue (lookup "client_secret" (body req));
                 ArgValue (match GENAI_CLIENT_SECRET cfg with
                           | Some secret => JStr secret
                           | None => JUndefined
                           end)] :: later) /\
  trace (REST.app cfg wr r req)
  = (if passes cfg req then trace (REST.handler wr r req) else []).
Proof.
  rewrite sdk_app_run, rest_app_run. unfold SDK.gate_log, storedClientSecret.
  destruct (passes cfg req); (split; [eexists |]);
    destruct (GENAI_CLIENT_SECRET cfg); reflexivity.
Qed.

Lemma traverse_throws_at (x : JsVal) (l : list JsVal) :
  In x l -> converts x = false -> is_nullish x = false ->
  traverse element_text l = Throw TypeError.
Proof.
  intros Hin Hc Hx. induction l as [|y r IH]; [destruct Hin |].
  cbn [traverse]. destruct Hin as [-> | Hin].
  - unfold element_text at 1. rewrite Hx, (not_converts _ Hc). reflexivity.
  - rewrite (IH Hin). destruct (element_text y) as [t|e] eqn:E; [reflexivity |].
    cbn [cbind]. f_equal. unfold element_text in E.
    destruct (is_nullish y); [discriminate |]. exact (ToString_throws _ _ E).
Qed.

Lemma unconvertible_element (props : list (string * JsVal)) (l : list JsVal) :
  In (JObj props) l -> has_own "toString" props = true ->
  converts (JArr l) = false.
Proof.
  intros Hin Hp. unfold converts. rewrite ToString_array. unfold Array_join.
  rewrite (traverse_throws_at (JObj props) l Hin); [reflexivity | | reflexivity].
  now rewrite converts_object, Hp.
Qed.

(** X19.  The dashboard prompt of either service takes any array whose
    elements convert to text: after "data: " stand the texts of its
    elements joined by line feeds, where a null or undefined element gives
    an empty line.  An array that cannot be joined, as one holding an
    object with a toString property of its own, makes rendering throw a
    TypeError in both services. *)
Theorem dashboard_data_of_any_array (elements : list JsVal) (nsi : JsVal) :
  converts nsi = true ->
  (converts (JArr elements) = true ->
   exists ps pr,
     SDK.summaryPromptText (JArr elements) nsi = Normal ps /\
     REST.finalPromptData (JArr elements) nsi = Normal pr /\
     substring_of
       ("data: " ++ String.concat line_feed (map joined_text elements)) ps /\
     substring_of
       ("data: " ++ String.concat line_feed (map joined_text elements)) pr) /\
  (converts (JArr elements) = false ->
   SDK.summaryPromptText (JArr elements) nsi = Throw TypeError /\
   REST.finalPromptData (JArr elements) nsi = Throw TypeError) /\
  (forall props, In (JObj props) elements -> has_own "toString" props = true ->
   converts (JArr elements) = false).
Proof.
  intros Hn. split; [| split].
  - intros Hc.
    destruct (summary_prompts_text (JArr elements) nsi _
                (Array_join_converts nl elements Hc) Hn) as [-> ->].
    do 2 eexists. split; [reflexivity |]. split; [reflexivity |].
    cbv [fill SDK.summary_pieces REST.summary_pieces]. split.
    + exact (substring_of_label _ (but_last 6 SDK.finalPromptData_text_0)
               "data: " _ _ eq_refl).
    + exact (substring_of_label _ (but_last 6 REST.finalPromptData_text_0)
               "data: " _ _ eq_refl).
  - intros Hc.
    unfold SDK.summaryPromptText, SDK.finalPromptData, REST.finalPromptData.
    cbn [call_join]. rewrite (Array_join_not_converts nl elements Hc).
    split; reflexivity.
  - intros props. apply unconvertible_element.
Qed.

Lemma dashboard_data_of_any_array_witness :
  (exists ps,
     SDK.summaryPromptText (JArr [JStr "A"; JNull; JArr [JStr "B"; JStr "C"]])
       (JStr "Be specific") = Normal ps /\
     substring_of "data: A

B,C" ps) /\
  REST.finalPromptData (JArr [JStr "A"; JObj [("toString", JNull)]])
    (JStr "Be specific") = Throw TypeError.
Proof.
  split.
  - destruct (proj1 (dashboard_data_of_any_array
                       [JStr "A"; JNull; JArr [JStr "B"; JStr "C"]]
                       (JStr "Be specific") eq_refl) eq_refl)
      as (ps & pr & Hs & _ & Hd & _).
    exists ps. split; assumption.
  - exact (proj2 (proj1 (proj2 (dashboard_data_of_any_array
                                  [JStr "A"; JObj [("toString", JNull)]]
                                  (JStr "Be specific") eq_refl)) eq_refl)).
Defined.
